(** * Blackjack environment (blackjack.py): shallow embedding and properties

    The embedding follows [src/blackjack.py] definition by definition:
    cards and the infinite deck, the hand arithmetic of [get_hand_sum],
    the engine [Blackjack] with [reset] and [play_action], and the state
    enumeration [all_states].

    Python integers are modelled by [Z], lists by [list], strings by
    [string].  The engine object is mutated in place by the source; here
    every method takes the engine and returns the engine after the call
    next to the value returned or the exception raised. *)

From Stdlib Require Import List ZArith Lia Bool String DecimalString.
From Stdlib Require Import Permutation.
From Equations Require Import Equations.
Import ListNotations.

Local Open Scope Z_scope.

(** ** Python helpers *)

(** [sum(xs)]: left-to-right addition starting from 0. *)
Definition sum (xs : list Z) : Z := fold_left Z.add xs 0.

(** [range(a, b)]. *)
Definition range (a b : Z) : list Z :=
  map (fun i => a + Z.of_nat i) (seq 0 (Z.to_nat (b - a))).

(** [str(i)] for an integer. *)
Definition str (i : Z) : string := NilZero.string_of_int (Z.to_int i).

(** A boolean used as an integer, as in [sum(card.face == 'A' ...)]. *)
Definition int_of_bool (b : bool) : Z := if b then 1 else 0.

(** [for _ in range(n): x = body(x)]. *)
Definition for_range {A : Type} (n : Z) (body : A -> A) (x : A) : A :=
  Nat.iter (Z.to_nat n) body x.

(** [itertools.product] of four sequences, leftmost slowest. *)
Definition product {A B C D : Type}
  (la : list A) (lb : list B) (lc : list C) (ld : list D)
  : list (A * B * C * D) :=
  flat_map (fun a =>
    flat_map (fun b =>
      flat_map (fun c =>
        map (fun d => (a, b, c, d)) ld) lc) lb) la.

(** Exceptions raised by the engine, and results of calls that may raise. *)
Inductive exception : Type :=
| AssertionError
| IndexError.

Inductive exc (A : Type) : Type :=
| Ok (a : A)
| Raise (e : exception).
Arguments Ok {A} a.
Arguments Raise {A} e.

Definition bind {A B : Type} (m : exc A) (k : A -> exc B) : exc B :=
  match m with
  | Ok a => k a
  | Raise e => Raise e
  end.

Notation "x <- m ;; k" := (bind m (fun x => k))
  (at level 61, m at next level, right associativity).

(** [xs[i]] for a non-negative index. *)
Definition index {A : Type} (xs : list A) (i : nat) : exc A :=
  match nth_error xs i with
  | Some x => Ok x
  | None => Raise IndexError
  end.

(** ** Card and Deck *)

Record Card : Type := mkCard { face : string; value : Z }.

Definition is_ace (c : Card) : bool := (face c =? "A")%string.

Module Deck.

(** The class-level table of the thirteen faces. *)
Definition cards : list Card :=
  mkCard "A" 1
    :: map (fun i => mkCard (str i) i) (range 2 11)
    ++ [mkCard "J" 10; mkCard "Q" 10; mkCard "K" 10].

(** The generator behind the deck.  [rand k] is the k-th raw number the
    generator hands out (it is fixed by the seed, or by the environment
    when there is no seed); [drawn] counts the draws made so far. *)
Record t : Type := mk { rand : nat -> nat; drawn : nat }.

(** [rand.choice(seq)]: the element at a generated index below
    [len(seq)]. *)
Definition choice (r : nat) (xs : list Card) : Card :=
  nth (r mod List.length xs) xs (mkCard "A" 1).

(** [draw_card]: the card drawn and the deck afterwards. *)
Definition draw_card (d : t) : Card * t :=
  (choice (rand d (drawn d)) cards, mk (rand d) (S (drawn d))).

(** The k-th card a deck will hand out from now on. *)
Definition upcoming (d : t) (k : nat) : Card :=
  choice (rand d (k + drawn d)) cards.

(** A deck whose generator picks the listed table indices in order. *)
Definition scripted (picks : list nat) : t :=
  mk (fun k => nth k picks 0%nat) 0.

End Deck.

(** ** Actions and observable states *)

Inductive BlackjackAction : Type :=
| HIT
| STICK.

Record BlackjackState : Type := mkState {
  player_sum : Z;
  usable_ace : bool;
  dealer_showing : Z;
  terminal : bool
}.

Definition BlackjackState_eq_dec (s t : BlackjackState) : {s = t} + {s <> t}.
Proof.
  decide equality; try apply Bool.bool_dec; apply Z.eq_dec.
Defined.

(** [set(...)]: the distinct values of a sequence, kept here in the order
    of their last occurrence. *)
Definition set_of (l : list BlackjackState) : list BlackjackState :=
  nodup BlackjackState_eq_dec l.

(** [BlackjackState.all_states]. *)
Definition all_states : list BlackjackState :=
  set_of
    (map (fun tup => match tup with (p, u, d, t) => mkState p u d t end)
       (product (range 2 31) [false; true] (range 1 11) [false; true])).

(** ** The engine *)

Module Blackjack.

Record t : Type := mk {
  deck : Deck.t;
  verbose : bool;
  turn : string;
  player_cards : list Card;
  dealer_cards : list Card;
  in_play : bool
}.

Definition set_deck (d : Deck.t) (g : t) : t :=
  mk d (verbose g) (turn g) (player_cards g) (dealer_cards g) (in_play g).
Definition set_turn (s : string) (g : t) : t :=
  mk (deck g) (verbose g) s (player_cards g) (dealer_cards g) (in_play g).
Definition set_player_cards (cs : list Card) (g : t) : t :=
  mk (deck g) (verbose g) (turn g) cs (dealer_cards g) (in_play g).
Definition set_dealer_cards (cs : list Card) (g : t) : t :=
  mk (deck g) (verbose g) (turn g) (player_cards g) cs (in_play g).
Definition set_in_play (b : bool) (g : t) : t :=
  mk (deck g) (verbose g) (turn g) (player_cards g) (dealer_cards g) b.

(** The two sums [get_hand_sum] starts from. *)
Definition non_ace_sum (cards : list Card) : Z :=
  sum (map value (filter (fun c => negb (is_ace c)) cards)).

Definition num_aces (cards : list Card) : Z :=
  sum (map (fun c => int_of_bool (is_ace c)) cards).

(** The sum of a hand with every Ace counted as 1: the value of
    [hand_sum] in [get_hand_sum] before its loop. *)
Definition hard_sum (cards : list Card) : Z :=
  non_ace_sum cards + num_aces cards.

(** One round of the loop of [get_hand_sum]. *)
Definition promote (hand_sum : Z) : Z :=
  if hand_sum <=? 11 then hand_sum + 10 else hand_sum.

Definition get_hand_sum (cards : list Card) : Z :=
  let non_ace_sum := non_ace_sum cards in
  let num_aces := num_aces cards in
  let hand_sum := non_ace_sum + num_aces in
  for_range num_aces promote hand_sum.

Definition dealer_sum (g : t) : Z := get_hand_sum (dealer_cards g).

Definition player_sum (g : t) : Z := get_hand_sum (player_cards g).

Definition usable_ace (g : t) : bool :=
  if negb (existsb is_ace (player_cards g)) then false
  else if sum (map value (player_cards g)) >=? 12 then false
  else true.

Definition dealer_showing (g : t) : exc Card := index (dealer_cards g) 1.

Definition state (g : t) : exc BlackjackState :=
  c <- dealer_showing g ;;
  Ok (mkState (player_sum g) (usable_ace g) (value c) (negb (in_play g))).

(** [[self.deck.draw_card() for _ in range(2)]]: two draws, in order. *)
Definition draw_two (d : Deck.t) : list Card * Deck.t :=
  let (c1, d1) := Deck.draw_card d in
  let (c2, d2) := Deck.draw_card d1 in
  ([c1; c2], d2).

(** [render] only prints; the text is not part of the model. *)
Definition deal_hands (g : t) : t :=
  let (pc, d1) := draw_two (deck g) in
  let g := set_deck d1 (set_player_cards pc g) in
  let (dc, d2) := draw_two (deck g) in
  set_deck d2 (set_dealer_cards dc g).

(** What a method hands back: the state and a reward, or the exception
    raised while the state was computed. *)
Definition returning (g : t) (reward : Z) : t * exc (BlackjackState * Z) :=
  (g, s <- state g ;; Ok (s, reward)).

Definition reset (g : t) : t * exc (BlackjackState * Z) :=
  let g := set_turn "player" g in
  let g := set_player_cards [] g in
  let g := set_dealer_cards [] g in
  let g := deal_hands g in
  let g := set_in_play true g in
  if player_sum g =? 21 then
    let g := set_in_play false g in
    returning g 1
  else returning g 0.

(** [__init__]: the fields are created by the call of [reset]. *)
Definition init (d : Deck.t) (verbose : bool) : t :=
  fst (reset (mk d verbose "player" [] [] true)).

(** [self.dealer_cards.append(self.deck.draw_card())]. *)
Definition dealer_hit (g : t) : t :=
  let (c, d) := Deck.draw_card (deck g) in
  set_dealer_cards (dealer_cards g ++ [c]) (set_deck d g).

(** [self.player_cards.append(self.deck.draw_card())]. *)
Definition player_hit (g : t) : t :=
  let (c, d) := Deck.draw_card (deck g) in
  set_player_cards (player_cards g ++ [c]) (set_deck d g).

(** A bound on the cards the dealer can still draw: the distance of the
    hard sum of the dealer's hand from 17. *)
Definition draws_left (g : t) : nat :=
  Z.to_nat (17 - hard_sum (dealer_cards g)).

(** The dealer's loop in [play_action]:
    [while self.dealer_sum < 17: self.dealer_cards.append(...)].
    Every draw adds at least 1 to the hard sum of the dealer's hand, and the
    hand's value is never below its hard sum, so the loop ends. *)
Equations? dealer_turn (g : t) : t by wf (draws_left g) lt :=
  dealer_turn g with Z_lt_dec (dealer_sum g) 17 => {
    | left _ => dealer_turn (dealer_hit g);
    | right _ => g }.
Proof.
  assert (Hiter : forall n x, x <= Nat.iter n promote x).
  { induction n as [|n IH]; intro x; simpl; [lia|].
    specialize (IH x). unfold promote at 1.
    destruct (Nat.iter n promote x <=? 11); lia. }
  assert (Hhard : hard_sum (dealer_cards g) < 17).
  { unfold dealer_sum, get_hand_sum, for_range in *.
    eapply Z.le_lt_trans; [apply Hiter|eassumption]. }
  assert (Hsnoc : forall xs c, hard_sum (xs ++ [c]) = hard_sum xs + hard_sum [c]).
  { intros xs c. unfold hard_sum, non_ace_sum, num_aces, sum.
    rewrite filter_app, !map_app, !fold_left_app. simpl.
    destruct (negb (is_ace c)); simpl; lia. }
  unfold draws_left, dealer_hit, Deck.draw_card, set_dealer_cards.
  cbn [dealer_cards]. rewrite Hsnoc.
  assert (Hc : 1 <= hard_sum [Deck.choice (Deck.rand (deck g) (Deck.drawn (deck g))) Deck.cards]).
  { unfold Deck.choice.
    assert (Hk : (Deck.rand (deck g) (Deck.drawn (deck g)) mod List.length Deck.cards < 13)%nat)
      by (apply Nat.mod_upper_bound; discriminate).
    revert Hk. generalize (Deck.rand (deck g) (Deck.drawn (deck g)) mod List.length Deck.cards)%nat.
    intros k Hk.
    do 13 (destruct k as [|k]; [vm_compute; discriminate|]). lia. }
  lia.
Qed.

Definition play_action (g : t) (action : BlackjackAction)
  : t * exc (BlackjackState * Z) :=
  if negb (in_play g) then (g, Raise AssertionError)
  else
    match action with
    | STICK =>
        let g := set_turn "dealer" g in
        let g := dealer_turn g in
        let g := set_in_play false g in
        let dealer_sum := dealer_sum g in
        let player_sum := player_sum g in
        if dealer_sum >? 21 then returning g 1
        else if dealer_sum >? player_sum then returning g (-1)
        else if dealer_sum <? player_sum then returning g 1
        else returning g 0
    | HIT =>
        let g := player_hit g in
        if player_sum g >? 21 then
          let g := set_in_play false g in
          returning g (-1)
        else returning g 0
    end.

End Blackjack.

(** ** Histories of an engine *)

(** The calls a user can make on an engine. *)
Inductive call : Type :=
| Reset
| Play (action : BlackjackAction).

Definition run_call (g : Blackjack.t) (c : call)
  : Blackjack.t * exc (BlackjackState * Z) :=
  match c with
  | Reset => Blackjack.reset g
  | Play a => Blackjack.play_action g a
  end.

(** The engine after a sequence of calls; a call that raises leaves the
    engine as the raising method left it. *)
Definition run (g : Blackjack.t) (cs : list call) : Blackjack.t :=
  fold_left (fun g c => fst (run_call g c)) cs g.

(** The engines a user can hold: a fresh one, after any calls. *)
Definition reachable (g : Blackjack.t) : Prop :=
  exists d v cs, g = run (Blackjack.init d v) cs.

(** The Hand Evaluator's flag as the specification words it: the hand is
    soft when its value differs from the value with every Ace counted as 1,
    that is, when the loop of [get_hand_sum] promoted an Ace. *)
Definition evaluator_usable_ace (cards : list Card) : bool :=
  negb (Blackjack.get_hand_sum cards =? Blackjack.hard_sum cards).

(** The engine's flag as the specification words it: an Ace is held and
    the hard sum is below 12. *)
Definition ace_and_hard_below_12 (cards : list Card) : bool :=
  existsb is_ace cards && (Blackjack.hard_sum cards <? 12).

(** A hand of cards of the deck. *)
Definition from_deck (cards : list Card) : Prop :=
  Forall (fun c => In c Deck.cards) cards.

(** The table indices of some faces, for scripted decks. *)
Definition iA : nat := 0.
Definition i2 : nat := 1.
Definition i3 : nat := 2.
Definition i5 : nat := 4.
Definition i6 : nat := 5.
Definition i7 : nat := 6.
Definition i8 : nat := 7.
Definition i9 : nat := 8.
Definition i10 : nat := 9.
Definition iK : nat := 12.


(** ** Agents *)

(** [d[k]] for a dict held as the list of its items: the value stored with
    the key, [None] when the lookup raises [KeyError]. *)
Fixpoint dict_get (items : list (BlackjackState * BlackjackAction))
  (k : BlackjackState) : option BlackjackAction :=
  match items with
  | [] => None
  | (k', v) :: items =>
      if BlackjackState_eq_dec k k' then Some v else dict_get items k
  end.

(** [enumerate(xs)]: every element with its position. *)
Definition enumerate {A : Type} (xs : list A) : list (nat * A) :=
  combine (seq 0 (List.length xs)) xs.

Module BasicBlackjackAgent.

Record t : Type := mk {
  stick_threshold : Z;
  policy : list (BlackjackState * BlackjackAction)
}.

(** [__init__]: the policy is a dict built over [all_states]. *)
Definition init (stick_threshold : Z) : t :=
  mk stick_threshold
    (map (fun state =>
            (state,
             if player_sum state >=? stick_threshold then STICK else HIT))
       all_states).

Definition choose_action (self : t) (state : BlackjackState)
  : option BlackjackAction :=
  dict_get (policy self) state.

End BasicBlackjackAgent.

Module RandomBlackjackAgent.

Record t : Type := mk {
  policy : list (BlackjackState * BlackjackAction)
}.

(** [rand.choice(list(BlackjackAction))]: the action at a generated index
    below 2, in the order the enumeration declares them. *)
Definition choice (r : nat) : BlackjackAction :=
  nth (r mod 2) [HIT; STICK] HIT.

(** [__init__].  [rand k] is the k-th raw number of the generator made from
    the seed; the states are visited in the order the set yields them, one
    number each. *)
Definition init (rand : nat -> nat) : t :=
  mk (map (fun ks => (snd ks, choice (rand (fst ks)))) (enumerate all_states)).

Definition choose_action (self : t) (state : BlackjackState)
  : option BlackjackAction :=
  dict_get (policy self) state.

End RandomBlackjackAgent.

(** The number of cards the dealer can still draw, from the hard sum of the
    dealer's hand and whether it holds an Ace. *)
Definition dealer_draws_bound (cards : list Card) : Z :=
  let h := Blackjack.hard_sum cards in
  if 17 <=? Blackjack.get_hand_sum cards then 0
  else if 12 <=? h then 17 - h
  else if 0 <? Blackjack.num_aces cards then 12 - h
  else 6 + (11 - h) / 2.

(** The card a deck hands out at its [i]-th draw, counted from the first
    draw ever made from it. *)
Definition card_at (d : Deck.t) (i : nat) : Card :=
  Deck.choice (Deck.rand d i) Deck.cards.

(** The hands of an engine are the cards its deck handed out from draw [n]
    on: two for the player, two for the dealer, then [h] hits of the player,
    then [k] draws of the dealer, and nothing else was drawn since. *)
Definition dealt_in_order (g : Blackjack.t) (n h k : nat) : Prop :=
  Deck.drawn (Blackjack.deck g) = (n + 4 + h + k)%nat /\
  Blackjack.player_cards g
  = map (card_at (Blackjack.deck g)) ([n; S n] ++ seq (n + 4) h) /\
  Blackjack.dealer_cards g
  = map (card_at (Blackjack.deck g))
      ([S (S n); S (S (S n))] ++ seq (n + 4 + h) k) /\
  (Blackjack.in_play g = true -> k = 0%nat).

(** ** Statements and example engines *)

(** The settlement after the dealer's turn: the chain of comparisons at the
    end of the STICK branch of [play_action]. *)
Definition settlement (dealer_sum player_sum : Z) : Z :=
  if dealer_sum >? 21 then 1
  else if dealer_sum >? player_sum then -1
  else if dealer_sum <? player_sum then 1
  else 0.

(** What holds of every engine a user can hold (see [reachable_well_dealt]):
    the hands are made of cards of the deck, each has at least two cards,
    the player's hand is worth at most 31, and while the game is in play
    the dealer has exactly two cards and the player is not bust. *)
Definition well_dealt (g : Blackjack.t) : Prop :=
  from_deck (Blackjack.player_cards g) /\
  from_deck (Blackjack.dealer_cards g) /\
  (2 <= List.length (Blackjack.player_cards g))%nat /\
  (2 <= List.length (Blackjack.dealer_cards g))%nat /\
  Blackjack.player_sum g <= 31 /\
  (Blackjack.in_play g = true ->
   List.length (Blackjack.dealer_cards g) = 2%nat /\
   Blackjack.player_sum g <= 21).

(** The claim of scenario A for an engine [g]: if the next two cards are an
    Ace and a King, [reset] returns reward 1 and a terminal state with a
    player sum of 21 and no usable Ace. *)
Definition natural_without_usable_ace (g : Blackjack.t) : Prop :=
  Deck.upcoming (Blackjack.deck g) 0 = mkCard "A" 1 ->
  Deck.upcoming (Blackjack.deck g) 1 = mkCard "K" 10 ->
  exists s,
    snd (Blackjack.reset g) = Ok (s, 1) /\
    player_sum s = 21 /\ usable_ace s = false /\ terminal s = true.

(** An engine holding a given hand, for the examples. *)
Definition holding (cards : list Card) : Blackjack.t :=
  Blackjack.mk (Deck.scripted []) false "player" cards [] true.

(** An engine whose deck hands out A, K, 5, 6. *)
Definition ace_king_game : Blackjack.t :=
  Blackjack.mk (Deck.scripted [iA; iK; i5; i6]) false "player" [] [] true.

(** An engine dealt 10 and 9 against 2 and 3, with a 2 and a King to come. *)
Definition nineteen_game : Blackjack.t :=
  Blackjack.init (Deck.scripted [i10; i9; i2; i3; i2; iK]) false.

(** An engine dealt 10 and 10 against 6 and 5, with a 7 to come. *)
Definition twenty_game : Blackjack.t :=
  Blackjack.init (Deck.scripted [i10; i10; i6; i5; i7]) false.

(** The engine [nineteen_game] after two HITs: the 2 brings the player to
    21, the King to 31. *)
Definition thirty_one_game : Blackjack.t :=
  run nineteen_game [Play HIT; Play HIT].

(** An engine dealt 10 and 10 against two Aces, with four Aces, a 6 and
    five more Aces to come. *)
Definition ten_draw_game : Blackjack.t :=
  Blackjack.init
    (Deck.scripted [i10; i10; iA; iA; iA; iA; iA; iA; i6; iA; iA; iA; iA; iA])
    false.

Example cards_table :
  Deck.cards =
  [mkCard "A" 1; mkCard "2" 2; mkCard "3" 3; mkCard "4" 4; mkCard "5" 5;
   mkCard "6" 6; mkCard "7" 7; mkCard "8" 8; mkCard "9" 9; mkCard "10" 10;
   mkCard "J" 10; mkCard "Q" 10; mkCard "K" 10].
Proof. reflexivity. Qed.

(** Scenario D: the player sticks on 20; the dealer holds 6 and 5, draws a
    7 and stops at 18. *)
Example stick_on_twenty :
  snd (Blackjack.play_action twenty_game STICK)
  = Ok (mkState 20 false 5 true, 1).
Proof. vm_compute. reflexivity. Qed.

(** Scenario C: the player holds 10 and 9, hits and draws a 5. *)
Example hit_and_bust :
  snd (Blackjack.play_action
         (Blackjack.init (Deck.scripted [i10; i9; i2; i3; i5]) false) HIT)
  = Ok (mkState 24 false 3 true, -1).
Proof. vm_compute. reflexivity. Qed.

(** Scenario E: the player sticks on 18; the dealer holds 6 and 6, draws a
    King and is bust at 22. *)
Example stick_and_dealer_busts :
  snd (Blackjack.play_action
         (Blackjack.init (Deck.scripted [i10; i8; i6; i6; iK]) false) STICK)
  = Ok (mkState 18 false 6 true, 1).
Proof. vm_compute. reflexivity. Qed.

(** * Properties *)

(** ** Sums *)

Lemma fold_add_acc (xs : list Z) (a : Z) : fold_left Z.add xs a = a + sum xs.
Proof.
  unfold sum. revert a.
  induction xs as [|x xs IH]; intro a; simpl; [lia|].
  rewrite (IH (a + x)), (IH x). lia.
Qed.

Lemma sum_nil : sum [] = 0.
Proof. reflexivity. Qed.

Lemma sum_cons (x : Z) (xs : list Z) : sum (x :: xs) = x + sum xs.
Proof. unfold sum at 1. simpl. apply fold_add_acc. Qed.

Lemma sum_app (xs ys : list Z) : sum (xs ++ ys) = sum xs + sum ys.
Proof.
  induction xs as [|x xs IH].
  - rewrite app_nil_l, sum_nil. lia.
  - rewrite <- app_comm_cons, !sum_cons, IH. lia.
Qed.

(** ** The cards of the deck *)

Lemma deck_card (c : Card) :
  In c Deck.cards ->
  (is_ace c = true /\ value c = 1) \/
  (is_ace c = false /\ 2 <= value c <= 10).
Proof.
  rewrite cards_table. simpl.
  intros H.
  repeat (destruct H as [H|H]; [subst c; vm_compute; intuition congruence|]).
  contradiction.
Qed.

Lemma choice_in_deck (r : nat) : In (Deck.choice r Deck.cards) Deck.cards.
Proof.
  unfold Deck.choice. apply nth_In.
  apply Nat.mod_upper_bound. discriminate.
Qed.

Lemma draw_in_deck (d : Deck.t) : In (fst (Deck.draw_card d)) Deck.cards.
Proof. apply choice_in_deck. Qed.

Lemma upcoming_in_deck (d : Deck.t) (k : nat) : In (Deck.upcoming d k) Deck.cards.
Proof. apply choice_in_deck. Qed.

(** ** The arithmetic of a hand *)

Section Hand.

Import Blackjack.

Lemma non_ace_sum_cons (c : Card) (cards : list Card) :
  non_ace_sum (c :: cards)
  = (if is_ace c then 0 else value c) + non_ace_sum cards.
Proof.
  unfold non_ace_sum. simpl.
  destruct (is_ace c); simpl; [lia|apply sum_cons].
Qed.

Lemma num_aces_cons (c : Card) (cards : list Card) :
  num_aces (c :: cards) = int_of_bool (is_ace c) + num_aces cards.
Proof. unfold num_aces. simpl. apply sum_cons. Qed.

Lemma hard_sum_cons (c : Card) (cards : list Card) :
  hard_sum (c :: cards) = hard_sum [c] + hard_sum cards.
Proof.
  unfold hard_sum.
  rewrite !non_ace_sum_cons, !num_aces_cons.
  unfold non_ace_sum, num_aces. simpl. rewrite !sum_nil. lia.
Qed.

Lemma hard_sum_app (xs ys : list Card) :
  hard_sum (xs ++ ys) = hard_sum xs + hard_sum ys.
Proof.
  induction xs as [|x xs IH]; simpl.
  - reflexivity.
  - rewrite hard_sum_cons, (hard_sum_cons x xs), IH. lia.
Qed.

Lemma num_aces_nonneg (cards : list Card) : 0 <= num_aces cards.
Proof.
  induction cards as [|c cards IH]; [discriminate|].
  rewrite num_aces_cons. destruct (is_ace c); cbn [int_of_bool]; lia.
Qed.

Lemma existsb_is_ace (cards : list Card) :
  existsb is_ace cards = (0 <? num_aces cards).
Proof.
  induction cards as [|c cards IH]; [reflexivity|].
  simpl. rewrite num_aces_cons, IH.
  pose proof (num_aces_nonneg cards).
  destruct (is_ace c); cbn [int_of_bool orb];
    [symmetry; apply Z.ltb_lt; lia|reflexivity].
Qed.

Lemma hard_sum_single (c : Card) :
  In c Deck.cards -> hard_sum [c] = value c /\ 1 <= value c <= 10.
Proof.
  intros H. unfold hard_sum.
  rewrite non_ace_sum_cons, num_aces_cons.
  unfold non_ace_sum, num_aces. simpl. rewrite !sum_nil.
  destruct (deck_card c H) as [[-> ->]|[-> ?]]; cbn [int_of_bool]; lia.
Qed.

(** With cards of the deck, the hard sum is the plain sum of the values. *)
Lemma hard_sum_values (cards : list Card) :
  from_deck cards -> hard_sum cards = sum (map value cards).
Proof.
  induction 1 as [|c cards Hc _ IH]; [reflexivity|].
  rewrite hard_sum_cons, IH. simpl. rewrite sum_cons.
  destruct (hard_sum_single c Hc) as [-> _]. reflexivity.
Qed.

Lemma hard_sum_length (cards : list Card) :
  from_deck cards ->
  Z.of_nat (List.length cards) <= hard_sum cards
  <= 10 * Z.of_nat (List.length cards).
Proof.
  induction 1 as [|c cards Hc _ IH]; [vm_compute; split; discriminate|].
  rewrite hard_sum_cons. destruct (hard_sum_single c Hc) as [-> ?].
  simpl List.length. lia.
Qed.

(** The promotion loop. *)
Lemma iter_promote_ge (n : nat) (x : Z) : x <= Nat.iter n promote x.
Proof.
  induction n as [|n IH]; simpl; [lia|].
  unfold promote at 1. destruct (Nat.iter n promote x <=? 11); lia.
Qed.

Lemma iter_promote_high (n : nat) (x : Z) :
  11 < x -> Nat.iter n promote x = x.
Proof.
  intros Hx. induction n as [|n IH]; simpl; [reflexivity|].
  rewrite IH. unfold promote.
  destruct (Z.leb_spec x 11); [lia|reflexivity].
Qed.

Lemma iter_promote_low (n : nat) (x : Z) :
  x <= 11 -> x + 10 <= Nat.iter (S n) promote x <= 21.
Proof.
  intros Hx. rewrite Nat.iter_succ_r.
  replace (promote x) with (x + 10)
    by (unfold promote; destruct (Z.leb_spec x 11); [reflexivity|lia]).
  split; [apply iter_promote_ge|].
  assert (H : x + 10 <= 21) by lia. revert H. generalize (x + 10).
  intros y Hy. induction n as [|n IH]; simpl; [exact Hy|].
  unfold promote at 1. destruct (Z.leb_spec (Nat.iter n promote y) 11); lia.
Qed.

(** The value of a hand is its hard sum, unless an Ace is held and the
    hard sum is at most 11; then it is at least 10 more and at most 21. *)
Lemma get_hand_sum_hard (cards : list Card) :
  (num_aces cards = 0 \/ 11 < hard_sum cards) ->
  get_hand_sum cards = hard_sum cards.
Proof.
  unfold get_hand_sum, for_range. fold (hard_sum cards).
  intros [H|H]; [rewrite H; reflexivity|].
  apply iter_promote_high, H.
Qed.

Lemma get_hand_sum_soft (cards : list Card) :
  0 < num_aces cards -> hard_sum cards <= 11 ->
  hard_sum cards + 10 <= get_hand_sum cards <= 21.
Proof.
  unfold get_hand_sum, for_range. fold (hard_sum cards).
  intros Ha Hh.
  destruct (Z.to_nat (num_aces cards)) as [|n] eqn:E; [lia|].
  apply iter_promote_low, Hh.
Qed.

Lemma get_hand_sum_ge_hard (cards : list Card) :
  hard_sum cards <= get_hand_sum cards.
Proof. apply iter_promote_ge. Qed.

Lemma get_hand_sum_cases (cards : list Card) :
  get_hand_sum cards = hard_sum cards \/
  (hard_sum cards <= 11 /\ hard_sum cards + 10 <= get_hand_sum cards <= 21).
Proof.
  pose proof (num_aces_nonneg cards).
  destruct (Z.eq_dec (num_aces cards) 0) as [H0|H0];
    [left; apply get_hand_sum_hard; auto|].
  destruct (Z.le_gt_cases (hard_sum cards) 11) as [Hh|Hh].
  - right. split; [exact Hh|]. apply get_hand_sum_soft; lia.
  - left. apply get_hand_sum_hard. right. lia.
Qed.

End Hand.

(** ** The usable-Ace flag *)

Section UsableAce.

Import Blackjack.

(** The engine's flag, computed from the hand it is given. *)
Lemma usable_ace_unfold (g : Blackjack.t) :
  from_deck (player_cards g) ->
  Blackjack.usable_ace g
  = (0 <? num_aces (player_cards g)) && (hard_sum (player_cards g) <? 12).
Proof.
  intros Hd. unfold Blackjack.usable_ace.
  rewrite existsb_is_ace, <- (hard_sum_values _ Hd).
  destruct (0 <? num_aces (player_cards g)); cbn [negb andb]; [|reflexivity].
  destruct (Z.ltb_spec (hard_sum (player_cards g)) 12) as [H|H].
  - destruct (Z.geb_spec (hard_sum (player_cards g)) 12); [lia|reflexivity].
  - destruct (Z.geb_spec (hard_sum (player_cards g)) 12); [reflexivity|lia].
Qed.

Lemma evaluator_usable_ace_unfold (cards : list Card) :
  evaluator_usable_ace cards
  = (0 <? num_aces cards) && (hard_sum cards <? 12).
Proof.
  unfold evaluator_usable_ace.
  pose proof (num_aces_nonneg cards) as Hn.
  destruct (Z.ltb_spec 0 (num_aces cards)) as [Ha|Ha]; cbn [andb].
  - destruct (Z.ltb_spec (hard_sum cards) 12) as [Hh|Hh].
    + pose proof (get_hand_sum_soft cards Ha ltac:(lia)).
      destruct (Z.eqb_spec (get_hand_sum cards) (hard_sum cards));
        [lia|reflexivity].
    + rewrite get_hand_sum_hard by (right; lia).
      rewrite Z.eqb_refl. reflexivity.
  - rewrite get_hand_sum_hard by (left; lia).
    rewrite Z.eqb_refl. reflexivity.
Qed.

End UsableAce.

(** C3.  For every sequence of cards of the deck held as the player's hand,
    the flag the engine computes ([usable_ace]: an Ace is held and the sum
    of the values is below 12) agrees with the Hand Evaluator's definition:
    the value [get_hand_sum] returns differs from the hard sum, that is, an
    Ace was promoted. *)
Theorem usable_ace_agrees_with_evaluator
  (cards : list Card) (g : Blackjack.t) :
  from_deck cards ->
  Blackjack.player_cards g = cards ->
  Blackjack.usable_ace g = ace_and_hard_below_12 cards /\
  Blackjack.usable_ace g = evaluator_usable_ace cards.
Proof.
  intros Hd <-. split.
  - rewrite usable_ace_unfold by exact Hd.
    unfold ace_and_hard_below_12. rewrite existsb_is_ace. reflexivity.
  - rewrite usable_ace_unfold by exact Hd.
    rewrite evaluator_usable_ace_unfold. reflexivity.
Qed.

Lemma usable_ace_agrees_with_evaluator_witness :
  Blackjack.usable_ace (holding [mkCard "A" 1; mkCard "5" 5; mkCard "A" 1])
  = ace_and_hard_below_12 [mkCard "A" 1; mkCard "5" 5; mkCard "A" 1] /\
  Blackjack.usable_ace (holding [mkCard "A" 1; mkCard "5" 5; mkCard "A" 1])
  = evaluator_usable_ace [mkCard "A" 1; mkCard "5" 5; mkCard "A" 1].
Proof.
  apply (usable_ace_agrees_with_evaluator
           [mkCard "A" 1; mkCard "5" 5; mkCard "A" 1]).
  - unfold from_deck. rewrite cards_table.
    repeat constructor; simpl; tauto.
  - reflexivity.
Defined.

(** C2.  For a non-empty hand of cards of the deck: with no Ace the value is
    the sum of the card values and there is no usable Ace; with exactly one
    Ace and the other cards summing to at most 10 the value is that sum plus
    11 and the Ace is usable; with exactly one Ace and the other cards
    summing to 11 or more the value is that sum plus 1 and there is no
    usable Ace.  The flag is the engine's and also the evaluator's. *)
Theorem hand_value_by_aces (cards : list Card) (g : Blackjack.t) :
  cards <> [] ->
  from_deck cards ->
  Blackjack.player_cards g = cards ->
  (Blackjack.num_aces cards = 0 ->
     Blackjack.get_hand_sum cards = sum (map value cards) /\
     Blackjack.usable_ace g = false /\
     evaluator_usable_ace cards = false) /\
  (Blackjack.num_aces cards = 1 -> Blackjack.non_ace_sum cards <= 10 ->
     Blackjack.get_hand_sum cards = Blackjack.non_ace_sum cards + 11 /\
     Blackjack.usable_ace g = true /\
     evaluator_usable_ace cards = true) /\
  (Blackjack.num_aces cards = 1 -> 11 <= Blackjack.non_ace_sum cards ->
     Blackjack.get_hand_sum cards = Blackjack.non_ace_sum cards + 1 /\
     Blackjack.usable_ace g = false /\
     evaluator_usable_ace cards = false).
Proof.
  intros _ Hd Hg.
  assert (Hd' : from_deck (Blackjack.player_cards g)) by (rewrite Hg; exact Hd).
  rewrite (usable_ace_unfold g Hd'), Hg, evaluator_usable_ace_unfold.
  repeat split.
  - rewrite get_hand_sum_hard by (left; assumption).
    apply hard_sum_values, Hd.
  - rewrite H. reflexivity.
  - rewrite H. reflexivity.
  - unfold Blackjack.get_hand_sum, for_range. rewrite H.
    change (Z.to_nat 1) with 1%nat. cbn [Nat.iter nat_rect].
    unfold Blackjack.promote.
    destruct (Z.leb_spec (Blackjack.non_ace_sum cards + 1) 11); lia.
  - unfold Blackjack.hard_sum. rewrite H.
    destruct (Z.ltb_spec (Blackjack.non_ace_sum cards + 1) 12); [reflexivity|lia].
  - unfold Blackjack.hard_sum. rewrite H.
    destruct (Z.ltb_spec (Blackjack.non_ace_sum cards + 1) 12); [reflexivity|lia].
  - unfold Blackjack.get_hand_sum, for_range. rewrite H.
    change (Z.to_nat 1) with 1%nat. cbn [Nat.iter nat_rect].
    unfold Blackjack.promote.
    destruct (Z.leb_spec (Blackjack.non_ace_sum cards + 1) 11); lia.
  - unfold Blackjack.hard_sum. rewrite H.
    destruct (Z.ltb_spec (Blackjack.non_ace_sum cards + 1) 12); [lia|reflexivity].
  - unfold Blackjack.hard_sum. rewrite H.
    destruct (Z.ltb_spec (Blackjack.non_ace_sum cards + 1) 12); [lia|reflexivity].
Qed.

Lemma hand_value_by_aces_witness :
  Blackjack.get_hand_sum [mkCard "A" 1; mkCard "5" 5] = 16 /\
  Blackjack.usable_ace (holding [mkCard "A" 1; mkCard "5" 5]) = true /\
  evaluator_usable_ace [mkCard "A" 1; mkCard "5" 5] = true.
Proof.
  assert (Hne : [mkCard "A" 1; mkCard "5" 5] <> []) by discriminate.
  assert (Hd : from_deck [mkCard "A" 1; mkCard "5" 5]).
  { unfold from_deck. rewrite cards_table. repeat constructor; simpl; tauto. }
  destruct (hand_value_by_aces [mkCard "A" 1; mkCard "5" 5]
              (holding [mkCard "A" 1; mkCard "5" 5]) Hne Hd eq_refl)
    as (_ & H & _).
  apply H; vm_compute; [reflexivity|discriminate].
Defined.

(** ** Dealing *)

Section Dealing.

Import Blackjack.

(** [reset] in closed form: four cards are drawn, two for the player and
    then two for the dealer; the game is in play unless the player holds
    21, and the reward is 1 exactly then. *)
Lemma reset_eq (g : Blackjack.t) :
  let d := deck g in
  let hand := [Deck.upcoming d 0; Deck.upcoming d 1] in
  let natural := get_hand_sum hand =? 21 in
  let g' :=
    Blackjack.mk (Deck.mk (Deck.rand d) (4 + Deck.drawn d)) (verbose g)
      "player" hand [Deck.upcoming d 2; Deck.upcoming d 3] (negb natural) in
  reset g
  = (g', Ok (mkState (get_hand_sum hand) (Blackjack.usable_ace g')
               (value (Deck.upcoming d 3)) natural,
             if natural then 1 else 0)).
Proof.
  intros d hand natural g'. unfold reset. cbv beta zeta.
  destruct (Blackjack.player_sum _ =? 21) eqn:E;
    first [change (natural = true) in E | change (natural = false) in E];
    subst g'; rewrite E; reflexivity.
Qed.

End Dealing.

(** C7.  Whatever the deck will hand out, [reset] deals its next two cards
    to the player and the two after them to the dealer, and returns reward
    1 with a terminal state and [in_play] false exactly when the player's
    two cards are worth 21; otherwise it returns reward 0 with a
    non-terminal state and [in_play] true. *)
Theorem reset_deals_then_rewards (g : Blackjack.t) :
  let d := Blackjack.deck g in
  let g' := fst (Blackjack.reset g) in
  Blackjack.player_cards g' = [Deck.upcoming d 0; Deck.upcoming d 1] /\
  Blackjack.dealer_cards g' = [Deck.upcoming d 2; Deck.upcoming d 3] /\
  Deck.rand (Blackjack.deck g') = Deck.rand d /\
  Deck.drawn (Blackjack.deck g') = (4 + Deck.drawn d)%nat /\
  exists s r,
    snd (Blackjack.reset g) = Ok (s, r) /\
    player_sum s = Blackjack.player_sum g' /\
    ((r = 1 /\ terminal s = true /\ Blackjack.in_play g' = false)
     <-> Blackjack.player_sum g' = 21) /\
    ((r = 0 /\ terminal s = false /\ Blackjack.in_play g' = true)
     <-> Blackjack.player_sum g' <> 21).
Proof.
  intros d g'. subst g'. rewrite (reset_eq g). cbv zeta. fold d.
  cbn [fst snd Blackjack.player_cards Blackjack.dealer_cards Blackjack.deck
       Deck.rand Deck.drawn Blackjack.in_play].
  repeat (split; [reflexivity|]).
  eexists _, _. split; [reflexivity|].
  unfold Blackjack.player_sum.
  cbn [Blackjack.player_cards player_sum terminal].
  split; [reflexivity|].
  destruct (Z.eqb_spec
              (Blackjack.get_hand_sum [Deck.upcoming d 0; Deck.upcoming d 1]) 21)
    as [E|E]; cbn [negb]; split; split; intros; intuition congruence.
Qed.

(** C4, as stated, fails: with an Ace and a King dealt to the player the
    state [reset] returns has [usable_ace] true. *)
Lemma natural_without_usable_ace_fails :
  snd (Blackjack.reset ace_king_game) = Ok (mkState 21 true 6 true, 1) /\
  ~ natural_without_usable_ace ace_king_game.
Proof.
  split; [vm_compute; reflexivity|].
  intros H. destruct H as (s & Hs & _ & Hu & _); [reflexivity..|].
  vm_compute in Hs. injection Hs as <-. discriminate Hu.
Qed.

(** C4, amended.  When the player's two cards are an Ace and a King, in
    either order, [reset] returns reward 1 and a terminal state with a
    player sum of 21 and [usable_ace] true: the Ace is counted as 11. *)
Theorem reset_ace_king_is_natural (g : Blackjack.t) :
  (Deck.upcoming (Blackjack.deck g) 0 = mkCard "A" 1 /\
   Deck.upcoming (Blackjack.deck g) 1 = mkCard "K" 10) \/
  (Deck.upcoming (Blackjack.deck g) 0 = mkCard "K" 10 /\
   Deck.upcoming (Blackjack.deck g) 1 = mkCard "A" 1) ->
  exists s,
    snd (Blackjack.reset g) = Ok (s, 1) /\
    player_sum s = 21 /\ usable_ace s = true /\ terminal s = true /\
    Blackjack.in_play (fst (Blackjack.reset g)) = false.
Proof.
  intros H. rewrite (reset_eq g). cbv zeta.
  destruct H as [[-> ->]|[-> ->]]; eexists; repeat split.
Qed.

Lemma reset_ace_king_is_natural_witness :
  exists s,
    snd (Blackjack.reset ace_king_game) = Ok (s, 1) /\
    player_sum s = 21 /\ usable_ace s = true /\ terminal s = true /\
    Blackjack.in_play (fst (Blackjack.reset ace_king_game)) = false.
Proof.
  apply (reset_ace_king_is_natural ace_king_game).
  left. split; reflexivity.
Defined.

(** ** The dealer's turn *)

Section DealerTurn.

Import Blackjack.

(** [k] draws for the dealer, one after the other. *)
Lemma iter_dealer_hit (k : nat) (g : Blackjack.t) :
  Nat.iter k dealer_hit g
  = Blackjack.mk (Deck.mk (Deck.rand (deck g)) (k + Deck.drawn (deck g)))
      (verbose g) (turn g) (player_cards g)
      (dealer_cards g ++ map (Deck.upcoming (deck g)) (seq 0 k))
      (in_play g).
Proof.
  induction k as [|k IH].
  - destruct g as [[r n] v t pc dc ip]. cbn. rewrite app_nil_r. reflexivity.
  - rewrite Nat.iter_succ, IH.
    unfold dealer_hit, Deck.draw_card, set_dealer_cards, set_deck.
    cbn [deck verbose turn player_cards dealer_cards in_play
         Deck.rand Deck.drawn].
    rewrite seq_S, map_app, <- app_assoc. reflexivity.
Qed.

(** The loop draws exactly while the dealer's hand is worth less than 17. *)
Lemma dealer_turn_draws (g : Blackjack.t) :
  exists k : nat,
    dealer_turn g = Nat.iter k dealer_hit g /\
    (forall j, (j < k)%nat -> dealer_sum (Nat.iter j dealer_hit g) < 17) /\
    17 <= dealer_sum (dealer_turn g).
Proof.
  funelim (dealer_turn g).
  - destruct H as (k & Hk & Hlt & Hge).
    exists (S k). repeat split.
    + rewrite Hk. symmetry. apply Nat.iter_succ_r.
    + intros [|j] Hj; [assumption|].
      rewrite Nat.iter_succ_r. apply Hlt. lia.
    + exact Hge.
  - exists 0%nat. repeat split; [intros j Hj; lia|lia].
Qed.

End DealerTurn.

(** ** Engines in a well-dealt condition *)

Section Engine.

Import Blackjack.

(** One more card of the deck raises the value of a hand by at most 10,
    unless the new value is at most 21 anyway. *)
Lemma hit_value (cards : list Card) (c : Card) :
  In c Deck.cards ->
  get_hand_sum (cards ++ [c]) <= Z.max 21 (get_hand_sum cards + 10).
Proof.
  intros Hc.
  pose proof (get_hand_sum_ge_hard cards).
  destruct (hard_sum_single c Hc) as [Hv ?].
  destruct (get_hand_sum_cases (cards ++ [c])) as [E|[_ E]];
    [rewrite E, hard_sum_app|]; lia.
Qed.

Lemma two_cards_value (cards : list Card) :
  from_deck cards -> List.length cards = 2%nat ->
  2 <= get_hand_sum cards <= 21.
Proof.
  intros Hd Hl.
  pose proof (hard_sum_length cards Hd). rewrite Hl in *.
  pose proof (get_hand_sum_ge_hard cards).
  destruct (get_hand_sum_cases cards) as [E|[_ E]]; lia.
Qed.

Lemma state_ok (g : Blackjack.t) :
  (2 <= List.length (dealer_cards g))%nat ->
  exists c,
    nth_error (dealer_cards g) 1 = Some c /\
    state g = Ok (mkState (Blackjack.player_sum g) (Blackjack.usable_ace g)
                    (value c) (negb (in_play g))).
Proof.
  intros Hl. unfold state, Blackjack.dealer_showing, index.
  destruct (nth_error (dealer_cards g) 1) as [c|] eqn:E.
  - exists c. split; reflexivity.
  - apply nth_error_None in E. lia.
Qed.

(** [play_action] on a game that is over. *)
Lemma play_action_over (g : Blackjack.t) (a : BlackjackAction) :
  in_play g = false -> play_action g a = (g, Raise AssertionError).
Proof. intros H. unfold play_action. rewrite H. reflexivity. Qed.

(** The engine [play_action] leaves after STICK. *)
Lemma stick_engine (g : Blackjack.t) :
  in_play g = true ->
  fst (play_action g STICK)
  = set_in_play false (dealer_turn (set_turn "dealer" g)).
Proof.
  intros H. unfold play_action. rewrite H. cbv beta zeta. cbn [negb].
  repeat match goal with |- context [if ?b then _ else _] => destruct b end;
    reflexivity.
Qed.

(** The engine [play_action] leaves after HIT. *)
Lemma hit_engine (g : Blackjack.t) :
  in_play g = true ->
  fst (play_action g HIT)
  = set_in_play (Blackjack.player_sum (player_hit g) <=? 21) (player_hit g).
Proof.
  intros H. unfold play_action. rewrite H. cbv beta zeta. cbn [negb].
  rewrite Z.gtb_ltb.
  destruct (Z.ltb_spec 21 (Blackjack.player_sum (player_hit g)));
    destruct (Z.leb_spec (Blackjack.player_sum (player_hit g)) 21);
    try lia; cbn [fst returning]; [reflexivity|].
  destruct g as [dk v t pc dc ip]. cbn in H. subst ip. reflexivity.
Qed.

Lemma player_hit_eq (g : Blackjack.t) :
  player_hit g
  = Blackjack.mk (Deck.mk (Deck.rand (deck g)) (1 + Deck.drawn (deck g)))
      (verbose g) (turn g) (player_cards g ++ [Deck.upcoming (deck g) 0])
      (dealer_cards g) (in_play g).
Proof. reflexivity. Qed.

Lemma dealer_turn_eq (g : Blackjack.t) :
  exists k : nat,
    dealer_turn g
    = Blackjack.mk (Deck.mk (Deck.rand (deck g)) (k + Deck.drawn (deck g)))
        (verbose g) (turn g) (player_cards g)
        (dealer_cards g ++ map (Deck.upcoming (deck g)) (seq 0 k))
        (in_play g) /\
    (forall j, (j < k)%nat ->
       get_hand_sum (dealer_cards g ++ map (Deck.upcoming (deck g)) (seq 0 j))
       < 17) /\
    17 <= get_hand_sum
            (dealer_cards g ++ map (Deck.upcoming (deck g)) (seq 0 k)).
Proof.
  destruct (dealer_turn_draws g) as (k & Hk & Hlt & Hge).
  exists k. rewrite Hk in Hge |- *. rewrite iter_dealer_hit in Hge |- *.
  repeat split.
  - intros j Hj. specialize (Hlt j Hj). rewrite iter_dealer_hit in Hlt.
    exact Hlt.
  - exact Hge.
Qed.

Lemma from_deck_upcoming (d : Deck.t) (ks : list nat) :
  from_deck (map (Deck.upcoming d) ks).
Proof.
  unfold from_deck. apply Forall_map, Forall_forall.
  intros k _. apply upcoming_in_deck.
Qed.

Lemma reset_well_dealt (g : Blackjack.t) : well_dealt (fst (reset g)).
Proof.
  rewrite (reset_eq g). cbv zeta. unfold well_dealt.
  cbn [fst player_cards dealer_cards in_play List.length].
  unfold Blackjack.player_sum. cbn [player_cards].
  pose proof (two_cards_value
                [Deck.upcoming (deck g) 0; Deck.upcoming (deck g) 1]
                (from_deck_upcoming (deck g) [0; 1]%nat) eq_refl).
  repeat split; try lia.
  - apply (from_deck_upcoming (deck g) [0; 1]%nat).
  - apply (from_deck_upcoming (deck g) [2; 3]%nat).
Qed.

Lemma play_action_well_dealt (g : Blackjack.t) (a : BlackjackAction) :
  well_dealt g -> well_dealt (fst (play_action g a)).
Proof.
  intros Hg. destruct (in_play g) eqn:Hip;
    [|rewrite play_action_over by exact Hip; exact Hg].
  destruct Hg as (Hp & Hd & Hlp & Hld & Hp31 & Hin).
  destruct (Hin Hip) as [Hd2 Hp21].
  destruct a.
  - rewrite hit_engine by exact Hip. rewrite player_hit_eq.
    unfold well_dealt, set_in_play, Blackjack.player_sum.
    cbn [player_cards dealer_cards in_play].
    repeat split; try assumption.
    + apply Forall_app. split; [exact Hp|].
      apply (from_deck_upcoming (deck g) [0%nat]).
    + rewrite length_app. lia.
    + pose proof (hit_value (player_cards g) (Deck.upcoming (deck g) 0)
                    (upcoming_in_deck _ _)).
      unfold Blackjack.player_sum in Hp21. lia.
    + apply Z.leb_le. assumption.
  - rewrite stick_engine by exact Hip.
    destruct (dealer_turn_eq (set_turn "dealer" g)) as (k & -> & _ & _).
    unfold well_dealt, set_in_play, set_turn.
    cbn [player_cards dealer_cards in_play deck].
    repeat split; try assumption; try discriminate.
    + apply Forall_app. split; [exact Hd|apply from_deck_upcoming].
    + rewrite length_app. lia.
Qed.

Lemma run_snoc (g : Blackjack.t) (cs : list call) (c : call) :
  run g (cs ++ [c]) = fst (run_call (run g cs) c).
Proof. unfold run. rewrite fold_left_app. reflexivity. Qed.

Lemma reachable_well_dealt (g : Blackjack.t) : reachable g -> well_dealt g.
Proof.
  intros (d & v & cs & ->).
  induction cs as [|c cs IH] using rev_ind.
  - apply reset_well_dealt.
  - rewrite run_snoc. destruct c as [|a]; cbn [run_call].
    + apply reset_well_dealt.
    + apply play_action_well_dealt, IH.
Qed.

End Engine.

(** ** Playing an action *)

Section Playing.

Import Blackjack.

Lemma stick_eq (g : Blackjack.t) :
  in_play g = true ->
  let g' := set_in_play false (dealer_turn (set_turn "dealer" g)) in
  play_action g STICK
  = returning g' (settlement (dealer_sum g') (Blackjack.player_sum g')).
Proof.
  intros H g'. unfold play_action. rewrite H. cbv beta zeta. cbn [negb].
  fold g'. unfold settlement.
  repeat match goal with |- context [if ?b then _ else _] => destruct b end;
    reflexivity.
Qed.

Lemma hit_eq (g : Blackjack.t) :
  in_play g = true ->
  let bust := Blackjack.player_sum (player_hit g) >? 21 in
  play_action g HIT
  = returning (set_in_play (negb bust) (player_hit g))
      (if bust then -1 else 0).
Proof.
  intros H bust. unfold play_action. rewrite H. cbv beta zeta. cbn [negb].
  fold bust. destruct bust; cbn [negb]; [reflexivity|].
  destruct g as [dk v t pc dc ip]. cbn in H. subst ip. reflexivity.
Qed.

Lemma returning_ok (g : Blackjack.t) (r : Z) :
  (2 <= List.length (dealer_cards g))%nat ->
  exists c,
    nth_error (dealer_cards g) 1 = Some c /\
    returning g r
    = (g, Ok (mkState (Blackjack.player_sum g) (Blackjack.usable_ace g)
                (value c) (negb (in_play g)), r)).
Proof.
  intros Hl. destruct (state_ok g Hl) as (c & Hc & Hs).
  exists c. split; [exact Hc|]. unfold returning. rewrite Hs. reflexivity.
Qed.

(** In a game in play both actions return. *)
Lemma hit_returns (g : Blackjack.t) :
  well_dealt g -> in_play g = true ->
  exists s r, snd (play_action g HIT) = Ok (s, r).
Proof.
  intros (_ & _ & _ & Hld & _) Hip.
  rewrite (hit_eq g Hip). cbv zeta.
  match goal with |- context [returning ?g1 ?r] =>
    destruct (returning_ok g1 r Hld) as (c & _ & ->) end.
  eexists _, _. reflexivity.
Qed.

Lemma stick_returns (g : Blackjack.t) :
  well_dealt g -> in_play g = true ->
  exists s r, snd (play_action g STICK) = Ok (s, r).
Proof.
  intros (_ & _ & _ & Hld & _) Hip.
  rewrite (stick_eq g Hip). cbv zeta.
  match goal with |- context [returning ?g1 ?r] =>
    assert (Hl1 : (2 <= List.length (dealer_cards g1))%nat);
    [|destruct (returning_ok g1 r Hl1) as (c & _ & ->)] end.
  { destruct (dealer_turn_eq (set_turn "dealer" g)) as (k & -> & _).
    cbn [set_in_play set_turn dealer_cards deck verbose turn player_cards
         in_play].
    rewrite length_app. lia. }
  eexists _, _. reflexivity.
Qed.

(** The dealer's loop keeps a hand worth at most 26 that way, and ends with
    one worth at least 17. *)
Lemma dealer_turn_range (g : Blackjack.t) :
  dealer_sum g <= 26 -> 17 <= dealer_sum (dealer_turn g) <= 26.
Proof.
  intros H26. destruct (dealer_turn_draws g) as (k & Hk & Hlt & Hge).
  split; [exact Hge|]. rewrite Hk.
  destruct k as [|k]; [exact H26|].
  specialize (Hlt k (Nat.lt_succ_diag_r k)).
  rewrite Nat.iter_succ.
  set (g1 := Nat.iter k dealer_hit g) in *.
  change (dealer_sum (dealer_hit g1))
    with (get_hand_sum (dealer_cards g1 ++ [fst (Deck.draw_card (deck g1))])).
  pose proof (hit_value (dealer_cards g1) _ (draw_in_deck (deck g1))).
  unfold dealer_sum in Hlt. lia.
Qed.

End Playing.

(** C6.  In a game in play, HIT draws exactly one card, the next of the
    deck, for the player.  If the player's new total exceeds 21 the game is
    over and the reward is -1; otherwise, a total of exactly 21 included,
    the game stays in play and the reward is 0.  The state returned carries
    the new total. *)
Theorem hit_draws_one_card (g : Blackjack.t) :
  reachable g ->
  Blackjack.in_play g = true ->
  let g' := fst (Blackjack.play_action g HIT) in
  let hand := Blackjack.player_cards g ++ [Deck.upcoming (Blackjack.deck g) 0] in
  Blackjack.player_cards g' = hand /\
  Blackjack.dealer_cards g' = Blackjack.dealer_cards g /\
  Deck.rand (Blackjack.deck g') = Deck.rand (Blackjack.deck g) /\
  Deck.drawn (Blackjack.deck g') = (1 + Deck.drawn (Blackjack.deck g))%nat /\
  exists s r,
    snd (Blackjack.play_action g HIT) = Ok (s, r) /\
    player_sum s = Blackjack.get_hand_sum hand /\
    terminal s = negb (Blackjack.in_play g') /\
    (21 < Blackjack.get_hand_sum hand ->
     Blackjack.in_play g' = false /\ r = -1) /\
    (Blackjack.get_hand_sum hand <= 21 ->
     Blackjack.in_play g' = true /\ r = 0).
Proof.
  intros Hr Hip g' hand.
  destruct (reachable_well_dealt g Hr) as (_ & _ & _ & Hld & _).
  subst g'. rewrite (hit_eq g Hip). cbv zeta.
  rewrite player_hit_eq.
  set (g1 := Blackjack.mk _ _ _ _ _ _).
  set (bust := Blackjack.player_sum g1 >? 21).
  destruct (returning_ok (Blackjack.set_in_play (negb bust) g1)
              (if bust then -1 else 0) Hld) as (c & _ & ->).
  cbn [fst snd]. repeat (split; [reflexivity|]).
  eexists _, _. split; [reflexivity|].
  cbn [player_sum terminal]. repeat (split; [reflexivity|]).
  change (Blackjack.in_play (Blackjack.set_in_play (negb bust) g1))
    with (negb bust).
  change (Blackjack.player_sum g1) with (Blackjack.get_hand_sum hand) in bust.
  subst bust. rewrite Z.gtb_ltb.
  destruct (Z.ltb_spec 21 (Blackjack.get_hand_sum hand)); cbn [negb];
    split; intros; first [lia | split; reflexivity].
Qed.

Lemma hit_draws_one_card_witness :
  exists s r,
    snd (Blackjack.play_action nineteen_game HIT) = Ok (s, r) /\
    player_sum s = 21 /\ r = 0 /\
    Blackjack.in_play (fst (Blackjack.play_action nineteen_game HIT)) = true.
Proof.
  assert (Hr : reachable nineteen_game)
    by (exists (Deck.scripted [i10; i9; i2; i3; i2; iK]), false, [];
        reflexivity).
  destruct (hit_draws_one_card nineteen_game Hr eq_refl)
    as (_ & _ & _ & _ & s & r & Hs & Hp & _ & _ & Hle).
  exists s, r. split; [exact Hs|]. split; [rewrite Hp; reflexivity|].
  destruct Hle as [Hi Hr0]; [vm_compute; discriminate|].
  split; assumption.
Defined.

(** C5.  In a game in play, STICK makes the dealer draw the next cards of
    the deck one at a time, exactly while the dealer's hand is worth less
    than 17; the game is then over, and the reward is 1 if the dealer's
    total exceeds 21, whatever the player's total; otherwise -1 if it
    exceeds the player's, 1 if it is less, 0 if they are equal. *)
Theorem stick_dealer_policy_and_settlement (g : Blackjack.t) :
  reachable g ->
  Blackjack.in_play g = true ->
  let g' := fst (Blackjack.play_action g STICK) in
  let hand (j : nat) :=
    Blackjack.dealer_cards g
    ++ map (Deck.upcoming (Blackjack.deck g)) (seq 0 j) in
  exists (k : nat) s r,
    snd (Blackjack.play_action g STICK) = Ok (s, r) /\
    Blackjack.dealer_cards g' = hand k /\
    Deck.rand (Blackjack.deck g') = Deck.rand (Blackjack.deck g) /\
    Deck.drawn (Blackjack.deck g') = (k + Deck.drawn (Blackjack.deck g))%nat /\
    Blackjack.player_cards g' = Blackjack.player_cards g /\
    (forall j, (j < k)%nat -> Blackjack.get_hand_sum (hand j) < 17) /\
    17 <= Blackjack.dealer_sum g' /\
    Blackjack.in_play g' = false /\
    terminal s = true /\
    player_sum s = Blackjack.player_sum g /\
    (21 < Blackjack.dealer_sum g' -> r = 1) /\
    (Blackjack.dealer_sum g' <= 21 ->
     (Blackjack.player_sum g < Blackjack.dealer_sum g' -> r = -1) /\
     (Blackjack.dealer_sum g' < Blackjack.player_sum g -> r = 1) /\
     (Blackjack.dealer_sum g' = Blackjack.player_sum g -> r = 0)).
Proof.
  intros Hr Hip g' hand.
  destruct (reachable_well_dealt g Hr) as (_ & _ & _ & Hld & _).
  subst g'. rewrite (stick_eq g Hip). cbv zeta.
  destruct (dealer_turn_eq (Blackjack.set_turn "dealer" g))
    as (k & -> & Hlt & Hge).
  unfold Blackjack.set_turn at 1 2 3 4 5 6 7 8 9 10, Blackjack.set_in_play.
  cbn [Blackjack.deck Blackjack.verbose Blackjack.turn Blackjack.player_cards
       Blackjack.dealer_cards Blackjack.in_play] in *.
  fold (hand k) in Hge |- *.
  set (g1 := Blackjack.mk _ _ _ _ _ _).
  assert (Hl1 : (2 <= List.length (Blackjack.dealer_cards g1))%nat).
  { subst g1 hand. cbn [Blackjack.dealer_cards]. rewrite length_app. lia. }
  destruct (returning_ok g1
              (settlement (Blackjack.dealer_sum g1) (Blackjack.player_sum g1))
              Hl1) as (c & _ & ->).
  exists k. eexists _, _. cbn [fst snd].
  split; [reflexivity|].
  change (Blackjack.dealer_sum g1) with (Blackjack.get_hand_sum (hand k)).
  change (Blackjack.player_sum g1) with (Blackjack.player_sum g).
  repeat (split; [reflexivity|]).
  split; [exact Hlt|]. split; [exact Hge|].
  repeat (split; [reflexivity|]).
  unfold settlement. rewrite !Z.gtb_ltb.
  destruct (Z.ltb_spec 21 (Blackjack.get_hand_sum (hand k)));
    destruct (Z.ltb_spec (Blackjack.player_sum g)
                (Blackjack.get_hand_sum (hand k)));
    destruct (Z.ltb_spec (Blackjack.get_hand_sum (hand k))
                (Blackjack.player_sum g));
    repeat split; intros; first [reflexivity | lia].
Qed.

Lemma stick_dealer_policy_and_settlement_witness :
  exists s r,
    snd (Blackjack.play_action twenty_game STICK) = Ok (s, r) /\
    terminal s = true /\
    Blackjack.in_play (fst (Blackjack.play_action twenty_game STICK)) = false.
Proof.
  assert (Hr : reachable twenty_game)
    by (exists (Deck.scripted [i10; i10; i6; i5; i7]), false, [];
        reflexivity).
  destruct (stick_dealer_policy_and_settlement twenty_game Hr eq_refl)
    as (k & s & r & Hs & _ & _ & _ & _ & _ & _ & Hip & Ht & _).
  exists s, r. repeat split; assumption.
Defined.

(** C8.  On an engine a user can hold, [play_action] raises exactly when the
    game is not in play, the exception is the assertion's, and the engine
    is left as it was; when the game is in play, HIT and STICK both return
    a state and a reward. *)
Theorem play_action_raises_iff_over (g : Blackjack.t) (a : BlackjackAction) :
  reachable g ->
  ((exists e, snd (Blackjack.play_action g a) = Raise e)
   <-> Blackjack.in_play g = false) /\
  (Blackjack.in_play g = false ->
   Blackjack.play_action g a = (g, Raise AssertionError)) /\
  (Blackjack.in_play g = true ->
   exists s r, snd (Blackjack.play_action g a) = Ok (s, r)).
Proof.
  intros Hr.
  assert (Hok : Blackjack.in_play g = true ->
                exists s r, snd (Blackjack.play_action g a) = Ok (s, r)).
  { intros Hip. destruct a.
    - apply hit_returns; [apply reachable_well_dealt, Hr|exact Hip].
    - apply stick_returns; [apply reachable_well_dealt, Hr|exact Hip]. }
  split; [|split; [apply play_action_over|exact Hok]].
  split.
  - intros (e & He). destruct (Blackjack.in_play g); [|reflexivity].
    destruct (Hok eq_refl) as (s & r & H). congruence.
  - intros Hip. exists AssertionError.
    rewrite play_action_over by exact Hip. reflexivity.
Qed.

Lemma play_action_raises_iff_over_witness :
  (exists s r, snd (Blackjack.play_action twenty_game HIT) = Ok (s, r)) /\
  Blackjack.play_action (fst (Blackjack.play_action twenty_game STICK)) HIT
  = (fst (Blackjack.play_action twenty_game STICK), Raise AssertionError).
Proof.
  split.
  - apply (play_action_raises_iff_over twenty_game HIT).
    + exists (Deck.scripted [i10; i10; i6; i5; i7]), false, []. reflexivity.
    + reflexivity.
  - apply (play_action_raises_iff_over
             (fst (Blackjack.play_action twenty_game STICK)) HIT).
    + exists (Deck.scripted [i10; i10; i6; i5; i7]), false, [Play STICK].
      reflexivity.
    + vm_compute. reflexivity.
Defined.

(** C10.  In a game in play, after STICK the dealer's hand is worth at
    least 17 and at most 26. *)
Theorem stick_dealer_total_range (g : Blackjack.t) :
  reachable g ->
  Blackjack.in_play g = true ->
  (exists s r, snd (Blackjack.play_action g STICK) = Ok (s, r)) /\
  17 <= Blackjack.dealer_sum (fst (Blackjack.play_action g STICK)) <= 26.
Proof.
  intros Hr Hip. pose proof (reachable_well_dealt g Hr) as Hw.
  split; [apply stick_returns; assumption|].
  rewrite (stick_eq g Hip). cbv zeta. cbn [fst Blackjack.returning].
  change (Blackjack.dealer_sum
            (Blackjack.set_in_play false
               (Blackjack.dealer_turn (Blackjack.set_turn "dealer" g))))
    with (Blackjack.dealer_sum
            (Blackjack.dealer_turn (Blackjack.set_turn "dealer" g))).
  apply dealer_turn_range.
  destruct Hw as (_ & Hd & _ & _ & _ & Hin).
  destruct (Hin Hip) as [Hl2 _].
  pose proof (two_cards_value (Blackjack.dealer_cards g) Hd Hl2).
  change (Blackjack.dealer_sum (Blackjack.set_turn "dealer" g))
    with (Blackjack.get_hand_sum (Blackjack.dealer_cards g)).
  lia.
Qed.

Lemma stick_dealer_total_range_witness :
  17 <= Blackjack.dealer_sum (fst (Blackjack.play_action twenty_game STICK))
  <= 26.
Proof.
  apply (stick_dealer_total_range twenty_game).
  - exists (Deck.scripted [i10; i10; i6; i5; i7]), false, []. reflexivity.
  - reflexivity.
Defined.

(** ** The states an engine shows *)

(** What holds of the state of every engine a user can hold. *)
Lemma reachable_state_bounds (g : Blackjack.t) :
  reachable g ->
  exists s,
    Blackjack.state g = Ok s /\
    2 <= player_sum s <= 31 /\
    1 <= dealer_showing s <= 10 /\
    (terminal s = true <-> Blackjack.in_play g = false).
Proof.
  intros Hr.
  destruct (reachable_well_dealt g Hr) as (Hp & Hd & Hlp & Hld & Hp31 & _).
  destruct (state_ok g Hld) as (c & Hc & ->).
  eexists. split; [reflexivity|]. cbn [player_sum dealer_showing terminal].
  split; [|split].
  - split; [|exact Hp31].
    pose proof (hard_sum_length _ Hp).
    pose proof (get_hand_sum_ge_hard (Blackjack.player_cards g)).
    unfold Blackjack.player_sum. lia.
  - apply nth_error_In in Hc.
    unfold from_deck in Hd. rewrite Forall_forall in Hd.
    apply (hard_sum_single c (Hd c Hc)).
  - destruct (Blackjack.in_play g); cbn [negb]; split; congruence.
Qed.

(** C1.  A player sum of 31 is shown by an engine a user can hold: after 10
    and 9, a HIT drawing a 2 leaves the game in play at 21, and a second
    HIT drawing a King ends it at 31, outside the range 2..30. *)
Theorem player_sum_31_is_reachable :
  reachable thirty_one_game /\
  snd (Blackjack.play_action nineteen_game HIT)
  = Ok (mkState 21 false 3 false, 0) /\
  snd (Blackjack.play_action (run nineteen_game [Play HIT]) HIT)
  = Ok (mkState 31 false 3 true, -1) /\
  Blackjack.state thirty_one_game = Ok (mkState 31 false 3 true) /\
  ~ In (mkState 31 false 3 true) all_states.
Proof.
  split; [|split; [|split; [|split]]].
  - exists (Deck.scripted [i10; i9; i2; i3; i2; iK]), false,
      [Play HIT; Play HIT]. reflexivity.
  - vm_compute. reflexivity.
  - vm_compute. reflexivity.
  - vm_compute. reflexivity.
  - unfold all_states, set_of. rewrite nodup_In, in_map_iff.
    intros ((((p & u) & d) & t) & Heq & Hin).
    injection Heq as -> _ _ _.
    unfold product in Hin. apply in_flat_map in Hin.
    destruct Hin as (p' & Hp' & Hin).
    apply in_flat_map in Hin. destruct Hin as (u' & _ & Hin).
    apply in_flat_map in Hin. destruct Hin as (d' & _ & Hin).
    apply in_map_iff in Hin. destruct Hin as (t' & Heq & _).
    injection Heq as -> _ _ _.
    unfold range in Hp'. apply in_map_iff in Hp'.
    destruct Hp' as (i & Hi & Hs). apply in_seq in Hs.
    change (Z.to_nat (31 - 2)) with 29%nat in Hs. lia.
Qed.

(** ** The enumeration of states *)

Lemma in_range (a b x : Z) : In x (range a b) <-> a <= x < b.
Proof.
  unfold range. rewrite in_map_iff. split.
  - intros (i & <- & Hi). apply in_seq in Hi. lia.
  - intros H. exists (Z.to_nat (x - a)). split; [lia|].
    apply in_seq. lia.
Qed.

Lemma in_product {A B C D : Type}
  (la : list A) (lb : list B) (lc : list C) (ld : list D)
  (a : A) (b : B) (c : C) (d : D) :
  In (a, b, c, d) (product la lb lc ld)
  <-> In a la /\ In b lb /\ In c lc /\ In d ld.
Proof.
  unfold product. rewrite in_flat_map. split.
  - intros (a' & Ha & H). apply in_flat_map in H.
    destruct H as (b' & Hb & H). apply in_flat_map in H.
    destruct H as (c' & Hc & H). apply in_map_iff in H.
    destruct H as (d' & Heq & Hd). injection Heq as <- <- <- <-. auto.
  - intros (Ha & Hb & Hc & Hd). exists a. split; [exact Ha|].
    apply in_flat_map. exists b. split; [exact Hb|].
    apply in_flat_map. exists c. split; [exact Hc|].
    apply in_map_iff. exists d. auto.
Qed.

Lemma in_bools (b : bool) : In b [false; true].
Proof. destruct b; simpl; auto. Qed.

(** C9.  [all_states] is the set of the states with a player sum from 2 to
    30, either value of the usable-Ace flag, a dealer card from 1 to 10 and
    either value of the terminal flag: it has no state twice, it holds
    exactly those states, and there are 29 * 2 * 10 * 2 = 1160 of them. *)
Theorem all_states_is_the_product :
  NoDup all_states /\
  (forall s, In s all_states
             <-> 2 <= player_sum s <= 30 /\ 1 <= dealer_showing s <= 10) /\
  List.length all_states = (29 * 2 * 10 * 2)%nat /\
  List.length all_states = 1160%nat.
Proof.
  split; [apply NoDup_nodup|]. split.
  - intros [p u d t]. unfold all_states, set_of.
    rewrite nodup_In, in_map_iff. cbn [player_sum dealer_showing]. split.
    + intros ((((p' & u') & d') & t') & Heq & Hin).
      injection Heq as -> -> -> ->.
      apply in_product in Hin. destruct Hin as (Hp & _ & Hd & _).
      apply in_range in Hp. apply in_range in Hd. lia.
    + intros [Hp Hd]. exists (p, u, d, t). split; [reflexivity|].
      apply in_product. rewrite !in_range.
      repeat split; try lia; apply in_bools.
  - split; vm_compute; reflexivity.
Qed.

(** * Further properties of the code *)

(** ** Hands *)

Section HandMore.

Import Blackjack.

Lemma non_ace_sum_nonneg (cards : list Card) :
  from_deck cards -> 0 <= non_ace_sum cards.
Proof.
  induction 1 as [|c cards Hc _ IH]; [discriminate|].
  rewrite non_ace_sum_cons.
  destruct (deck_card c Hc) as [[-> _]|[-> ?]]; lia.
Qed.

(** Without an Ace every card is worth at least 2. *)
Lemma hard_sum_no_ace (cards : list Card) :
  from_deck cards -> num_aces cards = 0 ->
  2 * Z.of_nat (List.length cards) <= hard_sum cards.
Proof.
  induction 1 as [|c cards Hc Hd IH]; [discriminate|].
  rewrite num_aces_cons, hard_sum_cons. intros Hn.
  pose proof (num_aces_nonneg cards).
  destruct (hard_sum_single c Hc) as [-> _].
  destruct (deck_card c Hc) as [[E _]|[E ?]]; rewrite E in Hn;
    cbn [int_of_bool] in Hn; [lia|].
  cbn [List.length]. specialize (IH ltac:(lia)). lia.
Qed.

(** With cards of the deck the loop of [get_hand_sum] promotes one Ace at
    most. *)
Lemma get_hand_sum_one_promotion (cards : list Card) :
  from_deck cards -> 0 < num_aces cards -> hard_sum cards <= 11 ->
  get_hand_sum cards = hard_sum cards + 10.
Proof.
  intros Hd Ha Hh. pose proof (non_ace_sum_nonneg cards Hd) as Hn.
  unfold get_hand_sum, for_range. fold (hard_sum cards).
  destruct (Z.to_nat (num_aces cards)) as [|n] eqn:E; [lia|].
  rewrite Nat.iter_succ_r.
  replace (promote (hard_sum cards)) with (hard_sum cards + 10)
    by (unfold promote; destruct (Z.leb_spec (hard_sum cards) 11);
        [reflexivity|lia]).
  destruct (Z.le_gt_cases (hard_sum cards) 1) as [H1|H1].
  - assert (n = 0%nat) by (unfold hard_sum in H1; lia). subst n. reflexivity.
  - apply iter_promote_high. lia.
Qed.

Lemma two_cards_at_least_four (cards : list Card) :
  from_deck cards -> (2 <= List.length cards)%nat ->
  4 <= get_hand_sum cards.
Proof.
  intros Hd Hl.
  pose proof (num_aces_nonneg cards).
  pose proof (hard_sum_length cards Hd).
  pose proof (get_hand_sum_ge_hard cards).
  destruct (Z.eq_dec (num_aces cards) 0) as [Hz|Hz].
  - pose proof (hard_sum_no_ace cards Hd Hz). lia.
  - destruct (Z.le_gt_cases (hard_sum cards) 11) as [Hh|Hh]; [|lia].
    rewrite get_hand_sum_one_promotion by (assumption || lia). lia.
Qed.

Lemma sum_map_perm {A : Type} (f : A -> Z) (xs ys : list A) :
  Permutation xs ys -> sum (map f xs) = sum (map f ys).
Proof.
  induction 1 as [|x xs ys _ IH|x y xs|xs ys zs _ IH1 _ IH2];
    cbn [map]; rewrite ?sum_cons; try rewrite IH; lia.
Qed.

Lemma non_ace_sum_perm (xs ys : list Card) :
  Permutation xs ys -> non_ace_sum xs = non_ace_sum ys.
Proof.
  induction 1 as [|x xs ys _ IH|x y xs|xs ys zs _ IH1 _ IH2];
    rewrite ?non_ace_sum_cons; try rewrite IH; lia.
Qed.

End HandMore.

(** X1.  The value of a hand does not depend on the order of its cards. *)
Theorem get_hand_sum_order_free (xs ys : list Card) :
  Permutation xs ys ->
  Blackjack.get_hand_sum xs = Blackjack.get_hand_sum ys /\
  Blackjack.hard_sum xs = Blackjack.hard_sum ys.
Proof.
  intros H. unfold Blackjack.get_hand_sum, Blackjack.hard_sum.
  rewrite (non_ace_sum_perm xs ys H).
  unfold Blackjack.num_aces.
  rewrite (sum_map_perm (fun c => int_of_bool (is_ace c)) xs ys H).
  split; reflexivity.
Qed.

Lemma get_hand_sum_order_free_witness :
  Blackjack.get_hand_sum [mkCard "5" 5; mkCard "A" 1]
  = Blackjack.get_hand_sum [mkCard "A" 1; mkCard "5" 5] /\
  Blackjack.hard_sum [mkCard "5" 5; mkCard "A" 1]
  = Blackjack.hard_sum [mkCard "A" 1; mkCard "5" 5].
Proof.
  apply (get_hand_sum_order_free [mkCard "5" 5; mkCard "A" 1]
           [mkCard "A" 1; mkCard "5" 5]).
  apply perm_swap.
Defined.

(** X2.  For a hand of cards of the deck, [get_hand_sum] is the best total:
    it counts some of the Aces as 11 and the others as 1; no such count that
    stays at or below 21 is worth more; it is at most 21 whenever the hard
    sum is, and it is the hard sum when that is above 21. *)
Theorem get_hand_sum_is_best (cards : list Card) :
  from_deck cards ->
  (exists k, 0 <= k <= Blackjack.num_aces cards /\
     Blackjack.get_hand_sum cards = Blackjack.hard_sum cards + 10 * k) /\
  (forall k, 0 <= k <= Blackjack.num_aces cards ->
     Blackjack.hard_sum cards + 10 * k <= 21 ->
     Blackjack.hard_sum cards + 10 * k <= Blackjack.get_hand_sum cards) /\
  (Blackjack.hard_sum cards <= 21 -> Blackjack.get_hand_sum cards <= 21) /\
  (21 < Blackjack.hard_sum cards ->
   Blackjack.get_hand_sum cards = Blackjack.hard_sum cards).
Proof.
  intros Hd.
  pose proof (num_aces_nonneg cards) as Ha.
  pose proof (non_ace_sum_nonneg cards Hd) as Hn.
  assert (Hah : Blackjack.num_aces cards <= Blackjack.hard_sum cards)
    by (unfold Blackjack.hard_sum; lia).
  destruct (Z.eq_dec (Blackjack.num_aces cards) 0) as [H0|H0].
  - rewrite (get_hand_sum_hard cards) by (left; exact H0).
    repeat split; intros; try lia. exists 0. lia.
  - destruct (Z.le_gt_cases (Blackjack.hard_sum cards) 11) as [Hh|Hh].
    + rewrite (get_hand_sum_one_promotion cards Hd) by (assumption || lia).
      repeat split; intros; try lia. exists 1. lia.
    + rewrite (get_hand_sum_hard cards) by (right; lia).
      repeat split; intros; try lia. exists 0. lia.
Qed.

Lemma get_hand_sum_is_best_witness :
  Blackjack.get_hand_sum [mkCard "A" 1; mkCard "A" 1; mkCard "9" 9] <= 21.
Proof.
  assert (Hd : from_deck [mkCard "A" 1; mkCard "A" 1; mkCard "9" 9]).
  { unfold from_deck. rewrite cards_table. repeat constructor; simpl; tauto. }
  destruct (get_hand_sum_is_best
              [mkCard "A" 1; mkCard "A" 1; mkCard "9" 9] Hd)
    as (_ & _ & H & _).
  apply H. vm_compute. discriminate.
Defined.

(** X3.  Every card drawn is one of the thirteen of the table, is worth
    between 1 and 10, and is an Ace exactly when it is worth 1; the draw
    moves the deck on by one card and nothing else. *)
Theorem draw_card_gives_a_deck_card (d : Deck.t) :
  let c := fst (Deck.draw_card d) in
  let d' := snd (Deck.draw_card d) in
  In c Deck.cards /\
  1 <= value c <= 10 /\
  (is_ace c = true <-> value c = 1) /\
  c = Deck.upcoming d 0 /\
  (forall k, Deck.upcoming d' k = Deck.upcoming d (S k)).
Proof.
  intros c d'. pose proof (draw_in_deck d) as Hc. fold c in Hc.
  split; [exact Hc|].
  split; [apply (hard_sum_single c Hc)|].
  split; [|split].
  - destruct (deck_card c Hc) as [[E V]|[E V]]; rewrite E;
      split; intros; (reflexivity || lia || congruence).
  - reflexivity.
  - intros k. unfold Deck.upcoming, d', Deck.draw_card.
    cbn [snd Deck.rand Deck.drawn]. rewrite Nat.add_succ_r. reflexivity.
Qed.

(** ** The engine *)

Section EngineMore.

Import Blackjack.

(** The state of an engine a user can hold, and the card it shows. *)
Lemma reachable_shown (g : Blackjack.t) :
  reachable g ->
  exists c,
    nth_error (dealer_cards g) 1 = Some c /\
    In c Deck.cards /\
    state g = Ok (mkState (Blackjack.player_sum g) (Blackjack.usable_ace g)
                    (value c) (negb (in_play g))).
Proof.
  intros Hr.
  destruct (reachable_well_dealt g Hr) as (_ & Hd & _ & Hld & _).
  destruct (state_ok g Hld) as (c & Hc & Hs).
  exists c. repeat split; [exact Hc| |exact Hs].
  unfold from_deck in Hd. rewrite Forall_forall in Hd.
  apply Hd. eapply nth_error_In, Hc.
Qed.

(** A new card makes the hand bust exactly when the hard sum with it
    exceeds 21. *)
Lemma bust_iff_hard (cards : list Card) (c : Card) :
  In c Deck.cards ->
  (get_hand_sum (cards ++ [c]) >? 21) = (hard_sum cards + value c >? 21).
Proof.
  intros Hc. rewrite !Z.gtb_ltb.
  pose proof (get_hand_sum_ge_hard (cards ++ [c])) as Hge.
  rewrite hard_sum_app in Hge.
  destruct (hard_sum_single c Hc) as [Hv _]. rewrite Hv in Hge.
  destruct (Z.ltb_spec 21 (hard_sum cards + value c));
    destruct (Z.ltb_spec 21 (get_hand_sum (cards ++ [c])));
    try reflexivity; try lia.
  destruct (get_hand_sum_cases (cards ++ [c])) as [E|[_ E]];
    [rewrite hard_sum_app, Hv in E|]; lia.
Qed.

(** The value of two cards of the deck. *)
Lemma natural_iff (c1 c2 : Card) :
  In c1 Deck.cards -> In c2 Deck.cards ->
  (get_hand_sum [c1; c2] = 21
   <-> (is_ace c1 = true /\ value c2 = 10) \/
       (value c1 = 10 /\ is_ace c2 = true)).
Proof.
  intros H1 H2.
  assert (Hd : from_deck [c1; c2])
    by (apply Forall_cons; [exact H1|apply Forall_cons; [exact H2|apply Forall_nil]]).
  assert (Hh : hard_sum [c1; c2] = value c1 + value c2).
  { rewrite (hard_sum_values _ Hd). cbn [map].
    rewrite !sum_cons, sum_nil. lia. }
  assert (Hn : num_aces [c1; c2]
               = int_of_bool (is_ace c1) + int_of_bool (is_ace c2)).
  { rewrite !num_aces_cons. unfold num_aces. cbn [map].
    rewrite sum_nil. lia. }
  destruct (deck_card c1 H1) as [[E1 V1]|[E1 V1]];
    destruct (deck_card c2 H2) as [[E2 V2]|[E2 V2]];
    rewrite E1, E2 in *; cbn [int_of_bool] in Hn.
  - rewrite (get_hand_sum_one_promotion _ Hd) by lia.
    split; [lia|intros [[_ ?]|[? _]]; lia].
  - rewrite (get_hand_sum_one_promotion _ Hd) by lia.
    split; [intros; left; split; [reflexivity|lia]
           |intros [[_ ?]|[_ ?]]; [lia|discriminate]].
  - rewrite (get_hand_sum_one_promotion _ Hd) by lia.
    split; [intros; right; split; [lia|reflexivity]
           |intros [[? _]|[? _]]; [discriminate|lia]].
  - rewrite (get_hand_sum_hard [c1; c2]) by (left; lia).
    split; [lia|intros [[? _]|[_ ?]]; discriminate].
Qed.

End EngineMore.

(** X4.  Every engine a user can hold shows a state: the player's sum is
    between 4 and 31, the dealer's card between 1 and 10, the state is
    terminal exactly when the game is not in play; while the game is in
    play the player's sum is at most 21, and a usable Ace comes with a sum
    between 12 and 21. *)
Theorem reachable_state_range (g : Blackjack.t) :
  reachable g ->
  exists s,
    Blackjack.state g = Ok s /\
    4 <= player_sum s <= 31 /\
    1 <= dealer_showing s <= 10 /\
    terminal s = negb (Blackjack.in_play g) /\
    (terminal s = false -> player_sum s <= 21) /\
    (usable_ace s = true -> 12 <= player_sum s <= 21).
Proof.
  intros Hr.
  destruct (reachable_shown g Hr) as (c & _ & Hc & ->).
  destruct (reachable_well_dealt g Hr) as (Hp & _ & Hlp & _ & Hp31 & Hin).
  eexists. split; [reflexivity|].
  cbn [player_sum dealer_showing terminal usable_ace].
  split; [|split; [|split; [|split]]].
  - split; [|exact Hp31]. apply two_cards_at_least_four; assumption.
  - apply (hard_sum_single c Hc).
  - reflexivity.
  - intros Ht. apply Hin. destruct (Blackjack.in_play g);
      [reflexivity|discriminate].
  - rewrite (usable_ace_unfold g Hp). intros Hu.
    apply andb_prop in Hu. destruct Hu as [Ha Hh].
    apply Z.ltb_lt in Ha, Hh. unfold Blackjack.player_sum.
    rewrite (get_hand_sum_one_promotion _ Hp) by lia.
    pose proof (hard_sum_length _ Hp). lia.
Qed.

Lemma reachable_state_range_witness :
  exists s,
    Blackjack.state twenty_game = Ok s /\
    4 <= player_sum s <= 31 /\
    1 <= dealer_showing s <= 10 /\
    terminal s = negb (Blackjack.in_play twenty_game) /\
    (terminal s = false -> player_sum s <= 21) /\
    (usable_ace s = true -> 12 <= player_sum s <= 21).
Proof.
  apply (reachable_state_range twenty_game).
  exists (Deck.scripted [i10; i10; i6; i5; i7]), false, []. reflexivity.
Defined.

(** X5.  In a game in play, HIT ends the game with reward -1 exactly when
    the hard sum of the player's hand plus the value of the card drawn
    exceeds 21; otherwise the game stays in play with reward 0.  A player
    whose hard sum is at most 11, as with a usable Ace, cannot go bust. *)
Theorem hit_busts_iff_hard_sum_exceeds (g : Blackjack.t) :
  reachable g ->
  Blackjack.in_play g = true ->
  let total :=
    Blackjack.hard_sum (Blackjack.player_cards g)
    + value (Deck.upcoming (Blackjack.deck g) 0) in
  exists s r,
    snd (Blackjack.play_action g HIT) = Ok (s, r) /\
    (21 < total <-> r = -1) /\
    (total <= 21 <-> r = 0) /\
    (21 < total <-> terminal s = true) /\
    (Blackjack.hard_sum (Blackjack.player_cards g) <= 11 -> r = 0).
Proof.
  intros Hr Hip total.
  destruct (reachable_well_dealt g Hr) as (_ & _ & _ & Hld & _).
  pose proof (hard_sum_single _ (upcoming_in_deck (Blackjack.deck g) 0)) as Hv.
  rewrite (hit_eq g Hip). cbv zeta. rewrite player_hit_eq.
  unfold Blackjack.player_sum. cbn [Blackjack.player_cards].
  rewrite (bust_iff_hard _ _ (upcoming_in_deck (Blackjack.deck g) 0)).
  fold total.
  match goal with |- context [Blackjack.returning ?g1 ?r] =>
    destruct (returning_ok g1 r Hld) as (c & _ & ->) end.
  eexists _, _. split; [reflexivity|].
  cbn [terminal Blackjack.in_play Blackjack.set_in_play].
  rewrite Z.gtb_ltb.
  destruct (Z.ltb_spec 21 total); cbn [negb];
    repeat split; intros; try reflexivity; try lia; try discriminate.
Qed.

Lemma hit_busts_iff_hard_sum_exceeds_witness :
  exists s r,
    snd (Blackjack.play_action nineteen_game HIT) = Ok (s, r) /\ r = 0.
Proof.
  assert (Hr : reachable nineteen_game)
    by (exists (Deck.scripted [i10; i9; i2; i3; i2; iK]), false, [];
        reflexivity).
  destruct (hit_busts_iff_hard_sum_exceeds nineteen_game Hr eq_refl)
    as (s & r & Hs & _ & H0 & _).
  exists s, r. split; [exact Hs|]. apply H0. vm_compute. discriminate.
Defined.

(** X6.  [reset] returns reward 1 exactly when one of the player's two
    cards is an Ace and the other is worth 10 (a 10, Jack, Queen or King);
    in every other case the reward is 0. *)
Theorem reset_reward_is_one_iff_ace_and_ten (g : Blackjack.t) :
  let c1 := Deck.upcoming (Blackjack.deck g) 0 in
  let c2 := Deck.upcoming (Blackjack.deck g) 1 in
  exists s r,
    snd (Blackjack.reset g) = Ok (s, r) /\
    (r = 1 \/ r = 0) /\
    (r = 1 <-> (is_ace c1 = true /\ value c2 = 10) \/
               (value c1 = 10 /\ is_ace c2 = true)).
Proof.
  intros c1 c2. rewrite (reset_eq g). cbv zeta. fold c1 c2.
  eexists _, _. split; [reflexivity|].
  rewrite <- (natural_iff c1 c2)
    by apply upcoming_in_deck.
  destruct (Z.eqb_spec (Blackjack.get_hand_sum [c1; c2]) 21) as [E|E].
  - split; [left; reflexivity|]. split; intros; [exact E|reflexivity].
  - split; [right; reflexivity|]. split; intros; [discriminate|contradiction].
Qed.

(** ** States and rewards along a game *)

Section GameMore.

Import Blackjack.

(** What a call returns on an engine a user can hold, with the engine
    before and after. *)
Lemma play_action_shown (g : Blackjack.t) (a : BlackjackAction)
  (s' : BlackjackState) (r : Z) :
  reachable g ->
  snd (play_action g a) = Ok (s', r) ->
  let g' := fst (play_action g a) in
  in_play g = true /\
  nth_error (dealer_cards g') 1 = nth_error (dealer_cards g) 1 /\
  state g' = Ok s' /\
  (a = STICK -> player_cards g' = player_cards g /\ in_play g' = false).
Proof.
  intros Hr Hs g'.
  destruct (in_play g) eqn:Hip;
    [|rewrite (play_action_over g a Hip) in Hs; discriminate].
  destruct (reachable_well_dealt g Hr) as (_ & _ & _ & Hld & _).
  split; [reflexivity|]. subst g'. destruct a.
  - rewrite (hit_eq g Hip) in Hs |- *. cbv zeta in Hs |- *.
    unfold returning in Hs |- *. cbn [fst snd] in Hs |- *.
    split; [reflexivity|]. split; [|discriminate].
    destruct (state _) as [s0|e]; [|discriminate].
    cbn [bind] in Hs. congruence.
  - rewrite (stick_eq g Hip) in Hs |- *. cbv zeta in Hs |- *.
    unfold returning in Hs |- *. cbn [fst snd] in Hs |- *.
    split; [|split].
    + destruct (dealer_turn_eq (set_turn "dealer" g)) as (k & -> & _).
      cbn [set_in_play set_turn dealer_cards deck verbose turn player_cards
           in_play].
      apply nth_error_app1. lia.
    + destruct (state _) as [s0|e]; [|discriminate].
      cbn [bind] in Hs. congruence.
    + intros _. destruct (dealer_turn_eq (set_turn "dealer" g)) as (k & -> & _).
      split; reflexivity.
Qed.

End GameMore.

(** X7.  Within a hand the card the dealer shows never changes: the state
    [play_action] returns has the [dealer_showing] of the state before.
    After STICK the player's sum and the usable-Ace flag are those of the
    state before as well, and the state is terminal. *)
Theorem play_action_keeps_dealer_showing
  (g : Blackjack.t) (a : BlackjackAction) (s s' : BlackjackState) (r : Z) :
  reachable g ->
  Blackjack.state g = Ok s ->
  snd (Blackjack.play_action g a) = Ok (s', r) ->
  dealer_showing s' = dealer_showing s /\
  terminal s = false /\
  (a = STICK ->
   s' = mkState (player_sum s) (usable_ace s) (dealer_showing s) true).
Proof.
  intros Hr Hs Hs'.
  destruct (play_action_shown g a s' r Hr Hs') as (Hip & Hn & Hst & Hstick).
  assert (Hr' : reachable (fst (Blackjack.play_action g a))).
  { destruct Hr as (d & v & cs & ->). exists d, v, (cs ++ [Play a]).
    rewrite run_snoc. reflexivity. }
  destruct (reachable_shown g Hr) as (c & Hc & _ & Hsg).
  destruct (reachable_shown _ Hr') as (c' & Hc' & _ & Hsg').
  rewrite Hsg in Hs. rewrite Hsg' in Hst.
  injection Hs as <-. injection Hst as <-.
  cbn [dealer_showing terminal player_sum usable_ace].
  assert (c' = c) by congruence. subst c'.
  split; [reflexivity|]. split; [rewrite Hip; reflexivity|].
  intros Ha. destruct (Hstick Ha) as [Hpc ->].
  unfold Blackjack.player_sum, Blackjack.usable_ace. rewrite Hpc.
  reflexivity.
Qed.

Lemma play_action_keeps_dealer_showing_witness :
  dealer_showing (mkState 20 false 5 true)
  = dealer_showing (mkState 20 false 5 false) /\
  terminal (mkState 20 false 5 false) = false.
Proof.
  assert (Hr : reachable twenty_game)
    by (exists (Deck.scripted [i10; i10; i6; i5; i7]), false, [];
        reflexivity).
  assert (Hs : Blackjack.state twenty_game = Ok (mkState 20 false 5 false))
    by (vm_compute; reflexivity).
  assert (Hs' : snd (Blackjack.play_action twenty_game STICK)
                = Ok (mkState 20 false 5 true, 1))
    by (vm_compute; reflexivity).
  destruct (play_action_keeps_dealer_showing twenty_game STICK
              (mkState 20 false 5 false) (mkState 20 false 5 true) 1
              Hr Hs Hs') as (H1 & H2 & _).
  split; assumption.
Defined.

(** X8.  Whatever a user calls on an engine, a returned reward is -1, 0 or
    1, and it is 0 unless the state returned with it is terminal; [reset]
    never returns -1 and HIT never returns 1. *)
Theorem rewards_come_with_terminal_states
  (g : Blackjack.t) (c : call) (s : BlackjackState) (r : Z) :
  reachable g ->
  snd (run_call g c) = Ok (s, r) ->
  (r = -1 \/ r = 0 \/ r = 1) /\
  (terminal s = false -> r = 0) /\
  (c = Reset -> r <> -1) /\
  (c = Play HIT -> r <> 1).
Proof.
  intros Hr Hs. destruct c as [|a]; cbn [run_call] in Hs.
  - rewrite (reset_eq g) in Hs. cbv zeta in Hs. cbn [snd] in Hs.
    injection Hs as <- <-. cbn [terminal].
    destruct (Blackjack.get_hand_sum _ =? 21);
      repeat split; intros; try lia; try discriminate.
  - destruct (play_action_shown g a s r Hr Hs) as (Hip & _ & _ & _).
    destruct a.
    + rewrite (hit_eq g Hip) in Hs. cbv zeta in Hs.
      unfold Blackjack.returning in Hs. cbn [snd] in Hs.
      destruct (Blackjack.state _) as [s0|e] eqn:E; [|discriminate].
      cbn [bind] in Hs. injection Hs as <- <-.
      unfold Blackjack.state in E.
      destruct (Blackjack.dealer_showing _) as [c0|e]; [|discriminate].
      cbn [bind] in E. injection E as <-. cbn [terminal].
      cbn [Blackjack.in_play Blackjack.set_in_play].
      destruct (Blackjack.player_sum _ >? 21); cbn [negb];
        repeat split; intros; try lia; try discriminate.
    + rewrite (stick_eq g Hip) in Hs. cbv zeta in Hs.
      unfold Blackjack.returning in Hs. cbn [snd] in Hs.
      destruct (Blackjack.state _) as [s0|e] eqn:E; [|discriminate].
      cbn [bind] in Hs. injection Hs as <- <-.
      unfold Blackjack.state in E.
      destruct (Blackjack.dealer_showing _) as [c0|e]; [|discriminate].
      cbn [bind] in E. injection E as <-. cbn [terminal].
      cbn [Blackjack.in_play Blackjack.set_in_play].
      unfold settlement.
      repeat match goal with |- context [if ?b then _ else _] =>
        destruct b end;
        repeat split; intros; try lia; try discriminate.
Qed.

Lemma rewards_come_with_terminal_states_witness :
  1 = -1 \/ 1 = 0 \/ 1 = 1.
Proof.
  assert (Hr : reachable twenty_game)
    by (exists (Deck.scripted [i10; i10; i6; i5; i7]), false, [];
        reflexivity).
  assert (Hs : snd (run_call twenty_game (Play STICK))
               = Ok (mkState 20 false 5 true, 1))
    by (vm_compute; reflexivity).
  destruct (rewards_come_with_terminal_states twenty_game (Play STICK)
              (mkState 20 false 5 true) 1 Hr Hs) as (H & _).
  exact H.
Defined.

(** X9.  [reset] forgets the hand before it: on two engines with the same
    deck and the same [verbose] flag it leaves the same engine and returns
    the same state and reward, whatever their hands, turn markers and
    [in_play] flags were; so do all the calls that follow. *)
Theorem reset_forgets_the_hand (g1 g2 : Blackjack.t) :
  Blackjack.deck g1 = Blackjack.deck g2 ->
  Blackjack.verbose g1 = Blackjack.verbose g2 ->
  Blackjack.reset g1 = Blackjack.reset g2 /\
  (forall cs, run g1 (Reset :: cs) = run g2 (Reset :: cs)).
Proof.
  intros Hd Hv.
  assert (H : Blackjack.reset g1 = Blackjack.reset g2)
    by (rewrite (reset_eq g1), (reset_eq g2); cbv zeta;
        rewrite Hd, Hv; reflexivity).
  split; [exact H|].
  intros cs. unfold run. cbn [fold_left run_call]. rewrite H. reflexivity.
Qed.

Lemma reset_forgets_the_hand_witness :
  Blackjack.reset (holding [mkCard "A" 1; mkCard "K" 10; mkCard "K" 10])
  = Blackjack.reset (holding []).
Proof.
  apply (reset_forgets_the_hand
           (holding [mkCard "A" 1; mkCard "K" 10; mkCard "K" 10])
           (holding [])); reflexivity.
Defined.

(** ** Agents *)

Lemma in_all_states (s : BlackjackState) :
  In s all_states
  <-> 2 <= player_sum s <= 30 /\ 1 <= dealer_showing s <= 10.
Proof.
  destruct s as [p u d t]. unfold all_states, set_of.
  rewrite nodup_In, in_map_iff. cbn [player_sum dealer_showing]. split.
  - intros ((((p' & u') & d') & t') & Heq & Hin).
    injection Heq as -> -> -> ->.
    apply in_product in Hin. destruct Hin as (Hp & _ & Hd & _).
    apply in_range in Hp. apply in_range in Hd. lia.
  - intros [Hp Hd]. exists (p, u, d, t). split; [reflexivity|].
    apply in_product. rewrite !in_range.
    repeat split; try lia; apply in_bools.
Qed.

Lemma dict_get_none (items : list (BlackjackState * BlackjackAction))
  (k : BlackjackState) :
  dict_get items k = None <-> ~ In k (map fst items).
Proof.
  induction items as [|[k' v] items IH]; cbn [dict_get map fst In].
  - tauto.
  - destruct (BlackjackState_eq_dec k k') as [->|Hne].
    + split; [discriminate|]. intros H. exfalso. apply H. left. reflexivity.
    + rewrite IH. split; [intros H [E|E]; [congruence|tauto]|tauto].
Qed.

Lemma dict_get_tabulated (f : BlackjackState -> BlackjackAction)
  (keys : list BlackjackState) (k : BlackjackState) :
  In k keys -> dict_get (map (fun s => (s, f s)) keys) k = Some (f k).
Proof.
  induction keys as [|k' keys IH]; [contradiction|].
  intros Hin. cbn [map dict_get].
  destruct (BlackjackState_eq_dec k k') as [->|Hne]; [reflexivity|].
  apply IH. destruct Hin as [E|Hin]; [congruence|exact Hin].
Qed.

Lemma map_snd_enumerate_from {A : Type} (xs : list A) (n : nat) :
  map snd (combine (seq n (List.length xs)) xs) = xs.
Proof.
  revert n. induction xs as [|x xs IH]; intro n; [reflexivity|].
  cbn [List.length seq combine map snd]. rewrite IH. reflexivity.
Qed.

Lemma basic_policy_keys (th : Z) :
  map fst (BasicBlackjackAgent.policy (BasicBlackjackAgent.init th))
  = all_states.
Proof.
  unfold BasicBlackjackAgent.init. cbn [BasicBlackjackAgent.policy].
  rewrite map_map. cbn [fst]. apply map_id.
Qed.

Lemma random_policy_keys (rand : nat -> nat) :
  map fst (RandomBlackjackAgent.policy (RandomBlackjackAgent.init rand))
  = all_states.
Proof.
  unfold RandomBlackjackAgent.init, enumerate.
  cbn [RandomBlackjackAgent.policy].
  rewrite map_map. cbn [fst]. apply map_snd_enumerate_from.
Qed.

(** X10.  The threshold agent answers exactly on the states of
    [all_states]: on a state with a player sum from 2 to 30 and a dealer
    card from 1 to 10 it sticks when the player's sum has reached the
    threshold and hits otherwise; on every other state the lookup raises
    [KeyError]. *)
Theorem basic_agent_sticks_from_threshold
  (stick_threshold : Z) (s : BlackjackState) :
  let agent := BasicBlackjackAgent.init stick_threshold in
  (2 <= player_sum s <= 30 /\ 1 <= dealer_showing s <= 10 ->
   (stick_threshold <= player_sum s ->
    BasicBlackjackAgent.choose_action agent s = Some STICK) /\
   (player_sum s < stick_threshold ->
    BasicBlackjackAgent.choose_action agent s = Some HIT)) /\
  (~ (2 <= player_sum s <= 30 /\ 1 <= dealer_showing s <= 10) ->
   BasicBlackjackAgent.choose_action agent s = None).
Proof.
  intros agent. split.
  - intros Hin. apply in_all_states in Hin.
    unfold BasicBlackjackAgent.choose_action, agent, BasicBlackjackAgent.init.
    cbn [BasicBlackjackAgent.policy].
    rewrite (dict_get_tabulated _ _ _ Hin).
    destruct (Z.geb_spec (player_sum s) stick_threshold);
      split; intros; (reflexivity || lia).
  - intros Hout. unfold BasicBlackjackAgent.choose_action.
    apply dict_get_none. unfold agent. rewrite basic_policy_keys.
    rewrite in_all_states. exact Hout.
Qed.

(** X11.  The random agent answers exactly on the states of [all_states]
    too, whatever the seed: it returns an action on a state with a player
    sum from 2 to 30 and a dealer card from 1 to 10, and the lookup raises
    [KeyError] on every other state. *)
Theorem random_agent_answers_on_all_states
  (rand : nat -> nat) (s : BlackjackState) :
  let agent := RandomBlackjackAgent.init rand in
  (2 <= player_sum s <= 30 /\ 1 <= dealer_showing s <= 10 <->
   exists a, RandomBlackjackAgent.choose_action agent s = Some a) /\
  (~ (2 <= player_sum s <= 30 /\ 1 <= dealer_showing s <= 10) <->
   RandomBlackjackAgent.choose_action agent s = None).
Proof.
  intros agent.
  assert (Hnone : RandomBlackjackAgent.choose_action agent s = None
                  <-> ~ (2 <= player_sum s <= 30 /\
                         1 <= dealer_showing s <= 10)).
  { unfold RandomBlackjackAgent.choose_action. rewrite dict_get_none.
    unfold agent. rewrite random_policy_keys, in_all_states. reflexivity. }
  split; [|symmetry; exact Hnone].
  destruct (RandomBlackjackAgent.choose_action agent s) as [a|] eqn:E.
  - split; [intros _; exists a; reflexivity|].
    intros _.
    assert (Hn : ~ ~ (2 <= player_sum s <= 30 /\
                      1 <= dealer_showing s <= 10))
      by (intros Hn; apply Hnone in Hn; discriminate).
    lia.
  - split; [|intros (a & Ha); discriminate].
    intros Hin. exfalso. apply (proj1 Hnone); [reflexivity|exact Hin].
Qed.

(** X12.  Both agents can act on every state an engine shows while its
    game is in play.  On the states an engine can show at all, the lookup
    of either agent raises [KeyError] exactly for a player sum of 31. *)
Theorem agents_act_on_states_in_play
  (g : Blackjack.t) (s : BlackjackState)
  (stick_threshold : Z) (rand : nat -> nat) :
  reachable g ->
  Blackjack.state g = Ok s ->
  let basic := BasicBlackjackAgent.init stick_threshold in
  let random := RandomBlackjackAgent.init rand in
  (Blackjack.in_play g = true ->
   (exists a, BasicBlackjackAgent.choose_action basic s = Some a) /\
   (exists a, RandomBlackjackAgent.choose_action random s = Some a)) /\
  (BasicBlackjackAgent.choose_action basic s = None <-> player_sum s = 31) /\
  (RandomBlackjackAgent.choose_action random s = None <-> player_sum s = 31).
Proof.
  intros Hr Hs basic random.
  destruct (reachable_shown g Hr) as (c & _ & Hc & Hsg).
  destruct (reachable_well_dealt g Hr) as (Hp & _ & Hlp & _ & Hp31 & Hin).
  rewrite Hsg in Hs. injection Hs as <-.
  pose proof (two_cards_at_least_four _ Hp Hlp) as H4.
  destruct (hard_sum_single c Hc) as [_ Hv].
  assert (Hb : BasicBlackjackAgent.choose_action basic
                 (mkState (Blackjack.player_sum g) (Blackjack.usable_ace g)
                    (value c) (negb (Blackjack.in_play g))) = None
               <-> Blackjack.player_sum g = 31).
  { unfold BasicBlackjackAgent.choose_action. rewrite dict_get_none.
    unfold basic. rewrite basic_policy_keys, in_all_states.
    cbn [player_sum dealer_showing]. unfold Blackjack.player_sum in *. lia. }
  assert (Hrd : RandomBlackjackAgent.choose_action random
                  (mkState (Blackjack.player_sum g) (Blackjack.usable_ace g)
                     (value c) (negb (Blackjack.in_play g))) = None
                <-> Blackjack.player_sum g = 31).
  { unfold RandomBlackjackAgent.choose_action. rewrite dict_get_none.
    unfold random. rewrite random_policy_keys, in_all_states.
    cbn [player_sum dealer_showing]. unfold Blackjack.player_sum in *. lia. }
  cbn [player_sum]. split; [|split; assumption].
  intros Hip. destruct (Hin Hip) as [_ H21].
  split.
  - destruct (BasicBlackjackAgent.choose_action basic _) as [a|];
      [exists a; reflexivity|].
    exfalso. assert (Blackjack.player_sum g = 31) by (apply Hb; reflexivity).
    lia.
  - destruct (RandomBlackjackAgent.choose_action random _) as [a|];
      [exists a; reflexivity|].
    exfalso. assert (Blackjack.player_sum g = 31) by (apply Hrd; reflexivity).
    lia.
Qed.

Lemma agents_act_on_states_in_play_witness :
  (exists a,
     BasicBlackjackAgent.choose_action (BasicBlackjackAgent.init 17)
       (mkState 20 false 5 false) = Some a) /\
  (exists a,
     RandomBlackjackAgent.choose_action
       (RandomBlackjackAgent.init (fun k => k))
       (mkState 20 false 5 false) = Some a).
Proof.
  assert (Hr : reachable twenty_game)
    by (exists (Deck.scripted [i10; i10; i6; i5; i7]), false, [];
        reflexivity).
  assert (Hs : Blackjack.state twenty_game = Ok (mkState 20 false 5 false))
    by (vm_compute; reflexivity).
  destruct (agents_act_on_states_in_play twenty_game
              (mkState 20 false 5 false) 17 (fun k => k) Hr Hs)
    as (H & _ & _).
  apply H. reflexivity.
Defined.

(** ** The length of the dealer's turn *)

Section DealerBound.

Import Blackjack.

Lemma num_aces_app (xs ys : list Card) :
  num_aces (xs ++ ys) = num_aces xs + num_aces ys.
Proof. unfold num_aces. rewrite map_app. apply sum_app. Qed.

(** The value of a hand of cards of the deck, in one formula. *)
Lemma get_hand_sum_form (cards : list Card) :
  from_deck cards ->
  get_hand_sum cards
  = if (0 <? num_aces cards) && (hard_sum cards <=? 11)
    then hard_sum cards + 10 else hard_sum cards.
Proof.
  intros Hd. pose proof (num_aces_nonneg cards).
  destruct (Z.ltb_spec 0 (num_aces cards));
    destruct (Z.leb_spec (hard_sum cards) 11); cbn [andb].
  - apply get_hand_sum_one_promotion; assumption.
  - apply get_hand_sum_hard. right. assumption.
  - apply get_hand_sum_hard. left. lia.
  - apply get_hand_sum_hard. left. lia.
Qed.

(** Every card the dealer draws lowers the bound. *)
Lemma dealer_draws_bound_step (cards : list Card) (c : Card) :
  from_deck cards -> In c Deck.cards ->
  1 <= hard_sum cards ->
  get_hand_sum cards < 17 ->
  dealer_draws_bound (cards ++ [c]) + 1 <= dealer_draws_bound cards.
Proof.
  intros Hd Hc H1 Hlt.
  assert (Hd' : from_deck (cards ++ [c]))
    by (apply Forall_app; split; [exact Hd|apply Forall_cons; [exact Hc|apply Forall_nil]]).
  pose proof (num_aces_nonneg cards) as Ha.
  unfold dealer_draws_bound.
  rewrite (get_hand_sum_form _ Hd) in Hlt |- *.
  rewrite (get_hand_sum_form _ Hd').
  rewrite hard_sum_app, num_aces_app.
  destruct (hard_sum_single c Hc) as [-> Hv].
  assert (Hn : num_aces [c] = int_of_bool (is_ace c))
    by (rewrite num_aces_cons; unfold num_aces; cbn [map];
        rewrite sum_nil; lia).
  rewrite Hn.
  revert Hlt.
  destruct (deck_card c Hc) as [[E V]|[E V]]; rewrite E;
    cbn [int_of_bool];
    repeat match goal with
    | |- context [?a <? ?b] => destruct (Z.ltb_spec a b)
    | |- context [?a && ?b] => progress cbn [andb]
    | |- context [?a <=? ?b] =>
        lazymatch b with
        | context [if _ then _ else _] => fail
        | _ => destruct (Z.leb_spec a b)
        end
    end; cbn [andb]; intros Hlt; Z.div_mod_to_equations; lia.
Qed.

Lemma dealer_draws_bound_nonneg (cards : list Card) :
  from_deck cards -> 0 <= dealer_draws_bound cards.
Proof.
  intros Hd. unfold dealer_draws_bound.
  rewrite (get_hand_sum_form _ Hd).
  repeat match goal with
  | |- context [?a <? ?b] => destruct (Z.ltb_spec a b)
  | |- context [?a && ?b] => progress cbn [andb]
  | |- context [?a <=? ?b] =>
      lazymatch b with
      | context [if _ then _ else _] => fail
      | _ => destruct (Z.leb_spec a b)
      end
  end; Z.div_mod_to_equations; lia.
Qed.

Lemma dealer_draws_bound_two (cards : list Card) :
  from_deck cards -> List.length cards = 2%nat ->
  dealer_draws_bound cards <= 10.
Proof.
  intros Hd Hl. unfold dealer_draws_bound.
  pose proof (hard_sum_length _ Hd) as Hh. rewrite Hl in Hh.
  pose proof (num_aces_nonneg cards) as Ha.
  assert (Hno : num_aces cards = 0 -> 4 <= hard_sum cards).
  { intros H0. pose proof (hard_sum_no_ace _ Hd H0). lia. }
  rewrite (get_hand_sum_form _ Hd).
  repeat match goal with
  | |- context [?a <? ?b] => destruct (Z.ltb_spec a b)
  | |- context [?a && ?b] => progress cbn [andb]
  | |- context [?a <=? ?b] =>
      lazymatch b with
      | context [if _ then _ else _] => fail
      | _ => destruct (Z.leb_spec a b)
      end
  end; try specialize (Hno ltac:(lia)); Z.div_mod_to_equations; lia.
Qed.

End DealerBound.

(** X13.  In a game in play the dealer draws at most 10 cards on STICK, so
    the dealer's hand ends with at most 12 cards. *)
Theorem stick_draws_at_most_ten (g : Blackjack.t) :
  reachable g ->
  Blackjack.in_play g = true ->
  let g' := fst (Blackjack.play_action g STICK) in
  exists k : nat,
    (k <= 10)%nat /\
    Blackjack.dealer_cards g'
    = Blackjack.dealer_cards g
      ++ map (Deck.upcoming (Blackjack.deck g)) (seq 0 k) /\
    Deck.drawn (Blackjack.deck g')
    = (k + Deck.drawn (Blackjack.deck g))%nat /\
    (List.length (Blackjack.dealer_cards g') <= 12)%nat.
Proof.
  intros Hr Hip g'.
  destruct (reachable_well_dealt g Hr) as (_ & Hd & _ & _ & _ & Hin).
  destruct (Hin Hip) as [Hl2 _].
  subst g'. rewrite (stick_eq g Hip). cbv zeta.
  cbn [fst Blackjack.returning].
  destruct (dealer_turn_eq (Blackjack.set_turn "dealer" g))
    as (k & -> & Hlt & _).
  cbn [Blackjack.set_in_play Blackjack.set_turn Blackjack.dealer_cards
       Blackjack.deck Blackjack.verbose Blackjack.turn Blackjack.player_cards
       Blackjack.in_play Deck.drawn] in *.
  set (hand := fun j : nat =>
         Blackjack.dealer_cards g
         ++ map (Deck.upcoming (Blackjack.deck g)) (seq 0 j)) in *.
  assert (Hfd : forall j, from_deck (hand j))
    by (intro j; apply Forall_app; split;
        [exact Hd|apply from_deck_upcoming]).
  assert (Hstep : forall j, (j <= k)%nat ->
            dealer_draws_bound (hand j) + Z.of_nat j
            <= dealer_draws_bound (hand 0%nat)).
  { induction j as [|j IH]; intros Hj; [lia|].
    specialize (IH ltac:(lia)).
    assert (E : hand (S j) = hand j ++ [Deck.upcoming (Blackjack.deck g) j])
      by (unfold hand; rewrite seq_S, map_app, app_assoc; reflexivity).
    rewrite E.
    pose proof (hard_sum_length _ (Hfd j)) as Hh.
    assert (Hlen : (2 <= List.length (hand j))%nat)
      by (unfold hand; rewrite length_app; lia).
    pose proof (dealer_draws_bound_step (hand j)
                  (Deck.upcoming (Blackjack.deck g) j) (Hfd j)
                  (upcoming_in_deck _ _) ltac:(lia) (Hlt j ltac:(lia))).
    lia. }
  specialize (Hstep k (Nat.le_refl k)).
  pose proof (dealer_draws_bound_nonneg _ (Hfd k)) as H0.
  assert (H10 : dealer_draws_bound (hand 0%nat) <= 10).
  { apply dealer_draws_bound_two; [apply Hfd|].
    unfold hand. cbn [seq map]. rewrite app_nil_r. exact Hl2. }
  assert (Hk : (k <= 10)%nat) by lia.
  exists k. repeat split; [exact Hk|].
  fold (hand k). unfold hand. rewrite length_app, length_map, length_seq. lia.
Qed.

Lemma stick_draws_at_most_ten_witness :
  exists k : nat,
    (k <= 10)%nat /\
    Blackjack.dealer_cards (fst (Blackjack.play_action ten_draw_game STICK))
    = Blackjack.dealer_cards ten_draw_game
      ++ map (Deck.upcoming (Blackjack.deck ten_draw_game)) (seq 0 k) /\
    Deck.drawn
      (Blackjack.deck (fst (Blackjack.play_action ten_draw_game STICK)))
    = (k + Deck.drawn (Blackjack.deck ten_draw_game))%nat /\
    (List.length
       (Blackjack.dealer_cards
          (fst (Blackjack.play_action ten_draw_game STICK))) <= 12)%nat.
Proof.
  apply (stick_draws_at_most_ten ten_draw_game).
  - exists (Deck.scripted
              [i10; i10; iA; iA; iA; iA; iA; iA; i6; iA; iA; iA; iA; iA]),
      false, [].
    reflexivity.
  - reflexivity.
Defined.

(** The bound of 10 draws is reached: from two Aces the dealer draws four
    Aces, a 6 and five more Aces before standing on 17. *)
Example ten_draws_happen :
  List.length
    (Blackjack.dealer_cards (fst (Blackjack.play_action ten_draw_game STICK)))
  = 12%nat /\
  Blackjack.dealer_sum (fst (Blackjack.play_action ten_draw_game STICK)) = 17.
Proof. vm_compute. split; reflexivity. Qed.

(** ** The hands and the deck *)

Section HandsFromDeck.

Import Blackjack.

Lemma map_upcoming (d : Deck.t) (k : nat) :
  map (Deck.upcoming d) (seq 0 k) = map (card_at d) (seq (Deck.drawn d) k).
Proof.
  induction k as [|k IH]; [reflexivity|].
  rewrite !seq_S, !map_app, IH. cbn [map].
  unfold Deck.upcoming, card_at. rewrite (Nat.add_comm (0 + k)).
  reflexivity.
Qed.

Lemma reset_dealt_in_order (g : Blackjack.t) :
  dealt_in_order (fst (reset g)) (Deck.drawn (deck g)) 0 0.
Proof.
  rewrite (reset_eq g). cbv zeta. unfold dealt_in_order, card_at.
  cbn [fst deck player_cards dealer_cards in_play Deck.rand Deck.drawn
       seq app map].
  unfold Deck.upcoming. cbn [Nat.add].
  repeat split; try reflexivity. lia.
Qed.

Lemma play_action_dealt_in_order (g : Blackjack.t) (a : BlackjackAction)
  (n h k : nat) :
  dealt_in_order g n h k ->
  exists h' k', dealt_in_order (fst (play_action g a)) n h' k'.
Proof.
  intros (Hdr & Hp & Hd & Hk).
  destruct (in_play g) eqn:Hip.
  2:{ rewrite play_action_over by exact Hip. exists h, k.
      unfold dealt_in_order. cbn [fst].
      split; [exact Hdr|]. split; [exact Hp|]. split; [exact Hd|].
      intros E. rewrite Hip in E. discriminate. }
  specialize (Hk eq_refl). subst k.
  destruct a.
  - exists (S h), 0%nat. rewrite (hit_eq g Hip). cbv zeta.
    cbn [fst returning]. rewrite player_hit_eq.
    unfold dealt_in_order, set_in_play, card_at in *.
    cbn [deck player_cards dealer_cards in_play Deck.rand Deck.drawn] in *.
    repeat split.
    + lia.
    + rewrite Hp, seq_S, app_assoc, (map_app _ (_ ++ _)). f_equal.
      unfold Deck.upcoming. rewrite Hdr. cbn [map].
      replace (0 + (n + 4 + h + 0))%nat with (n + 4 + h)%nat by lia.
      reflexivity.
    + rewrite Hd. reflexivity.
  - rewrite (stick_eq g Hip). cbv zeta. cbn [fst returning].
    destruct (dealer_turn_eq (set_turn "dealer" g)) as (k & -> & _).
    exists h, k.
    unfold dealt_in_order, set_in_play, set_turn in *.
    cbn [deck player_cards dealer_cards in_play Deck.rand Deck.drawn] in *.
    repeat split.
    + lia.
    + rewrite Hp. reflexivity.
    + rewrite Hd, map_upcoming, Hdr.
      rewrite (map_app _ [_; _] (seq _ k)), (map_app _ [_; _] (seq _ 0)).
      cbn [seq]. rewrite app_nil_r.
      replace (n + 4 + h + 0)%nat with (n + 4 + h)%nat by lia.
      reflexivity.
    + discriminate.
Qed.

End HandsFromDeck.

(** X14.  The hands of every engine a user can hold are the cards the deck
    handed out since the last [reset], in the order of the draws and with
    none left out: two for the player, two for the dealer, then the
    player's hits, then the dealer's draws, the dealer drawing nothing
    while the game is in play. *)
Theorem hands_are_the_cards_drawn (g : Blackjack.t) :
  reachable g ->
  exists n h k : nat, dealt_in_order g n h k.
Proof.
  intros (d & v & cs & ->).
  induction cs as [|c cs IH] using rev_ind.
  - exists (Deck.drawn d), 0%nat, 0%nat.
    apply (reset_dealt_in_order (Blackjack.mk d v "player" [] [] true)).
  - rewrite run_snoc. destruct c as [|a]; cbn [run_call].
    + eexists _, 0%nat, 0%nat. apply reset_dealt_in_order.
    + destruct IH as (n & h & k & IH).
      destruct (play_action_dealt_in_order _ a n h k IH) as (h' & k' & H).
      exists n, h', k'. exact H.
Qed.

Lemma hands_are_the_cards_drawn_witness :
  exists n h k : nat,
    dealt_in_order (fst (Blackjack.play_action twenty_game STICK)) n h k.
Proof.
  apply (hands_are_the_cards_drawn
           (fst (Blackjack.play_action twenty_game STICK))).
  exists (Deck.scripted [i10; i10; i6; i5; i7]), false, [Play STICK].
  reflexivity.
Defined.
